(** * The image-processing facade of rembg-api

    A shallow embedding of [app/services/image_processor.py],
    [app/models/schemas.py] and the two processing endpoints of
    [app/routers/background.py], with the properties of the validator, the
    background-removal invoker, the encoding helpers and the endpoints.

    Conventions.
    - A Python [str] is a [string] holding its UTF-8 bytes, so a character is
      ASCII exactly when its byte is below 128; [bytes] is [list byte].
    - Python integers are unbounded: [Z].
    - Third-party code (PIL's codecs, rembg's [remove], the wall clock,
      [float] arithmetic and printing, the text of an encoding error) is not
      part of the repository: it enters as the [Variable]s of
      [Section Facade].
    - [base64.b64encode] and [base64.b64decode] are modelled after CPython's
      [Lib/base64.py] and [Modules/binascii.c] (module [binascii] below).
    - Effects are explicit: a computation of type [M A] maps a [World]
      (clock reads so far, the calls made to the model, the log records
      emitted) to a result or a raised exception, and the world after it. *)

From Stdlib Require Import ZArith NArith List String Ascii Lia Bool DecimalString.
From Stdlib.Strings Require Import Byte.
Import ListNotations.
Open Scope string_scope.

(** ** Python built-ins *)

Definition bytes := list byte.

(** [str(n)] for an [int]. *)
Definition str_int (z : Z) : string := NilZero.string_of_int (Z.to_int z).

(** [needle in haystack] on [str]. *)
Fixpoint contains (haystack needle : string) : bool :=
  if String.prefix needle haystack then true
  else match haystack with
       | EmptyString => false
       | String _ rest => contains rest needle
       end.

(** [s in collection] for a set of strings. *)
Definition in_set (s : string) (collection : list string) : bool :=
  existsb (String.eqb s) collection.

(** The values a byte takes, in order. *)
Definition byte_values : list N := map N.of_nat (seq 0 256).

(** [bytes] shown as text, one character per byte. *)
Definition string_of_bytes (b : bytes) : string :=
  string_of_list_ascii (map ascii_of_byte b).

(** Exception classes that reach the code. [binascii_Error] and
    [UnicodeEncodeError] derive from [ValueError]; [OtherError] stands for
    any further class that derives from [Exception] and not from
    [ValueError] (PIL's and rembg's own). *)
Inductive exn_class :=
| Exception
| ValueError
| binascii_Error
| UnicodeEncodeError
| OSError
| OtherError (name : string).

Inductive exn :=
| PyErr (cls : exn_class) (msg : string)
| HTTPException (status_code : Z) (detail : string).

(** [isinstance(e, ValueError)], what [except ValueError] tests. *)
Definition isinstance_ValueError (e : exn) : bool :=
  match e with
  | PyErr ValueError _ | PyErr binascii_Error _ | PyErr UnicodeEncodeError _ => true
  | _ => false
  end.

(** [str(e)]. Starlette's [HTTPException.__str__] gives ["<status>: <detail>"]. *)
Definition str_exn (e : exn) : string :=
  match e with
  | PyErr _ msg => msg
  | HTTPException status_code detail => str_int status_code ++ ": " ++ detail
  end.

(** [str(x)] for an [Optional[str]]. *)
Definition str_optional (x : option string) : string :=
  match x with
  | Some s => s
  | None => "None"
  end.

Definition HTTP_400_BAD_REQUEST : Z := 400.
Definition HTTP_500_INTERNAL_SERVER_ERROR : Z := 500.
Definition HTTP_501_NOT_IMPLEMENTED : Z := 501.

(** ** CPython's base64 codec *)

Module binascii.

Definition BASE64_PAD : ascii := "="%char.

Definition table_b2a_base64 : string :=
  "ABCDEFGHIJKLMNOPQRSTUVWXYZabcdefghijklmnopqrstuvwxyz0123456789+/".

(** [table_b2a_base64[n]]; the index is always below 64. *)
Definition b2a (n : N) : ascii :=
  match String.get (N.to_nat n) table_b2a_base64 with
  | Some c => c
  | None => zero
  end.

Fixpoint find_index (c : ascii) (table : string) (i : N) : option N :=
  match table with
  | EmptyString => None
  | String d rest => if Ascii.eqb c d then Some i else find_index c rest (N.succ i)
  end.

(** [table_a2b_base64[c]], the inverse table: [None] where the C table holds
    an invalid entry. *)
Definition a2b (c : ascii) : option N := find_index c table_b2a_base64 0.

(** The store [*bin_data++ = x] into an [unsigned char]. *)
Definition store (x : N) : byte :=
  match Byte.of_N (x mod 256) with
  | Some b => b
  | None => x00
  end.

(** [binascii.b2a_base64(data, newline=False)]: three bytes give four
    characters, a final group of one or two bytes is padded with [=]. *)
Fixpoint b2a_base64 (data : bytes) : string :=
  match data with
  | [] => ""
  | [x] =>
      let a := Byte.to_N x in
      String (b2a (N.shiftr a 2))
        (String (b2a (N.shiftl (N.land a 3) 4))
           (String BASE64_PAD (String BASE64_PAD "")))
  | [x; y] =>
      let a := Byte.to_N x in
      let b := Byte.to_N y in
      String (b2a (N.shiftr a 2))
        (String (b2a (N.lor (N.shiftl (N.land a 3) 4) (N.shiftr b 4)))
           (String (b2a (N.shiftl (N.land b 15) 2))
              (String BASE64_PAD "")))
  | x :: y :: z :: rest =>
      let a := Byte.to_N x in
      let b := Byte.to_N y in
      let c := Byte.to_N z in
      String (b2a (N.shiftr a 2))
        (String (b2a (N.lor (N.shiftl (N.land a 3) 4) (N.shiftr b 4)))
           (String (b2a (N.lor (N.shiftl (N.land b 15) 2) (N.shiftr c 6)))
              (String (b2a (N.land c 63)) (b2a_base64 rest))))
  end.

(** The end of [a2b_base64]: a quad left open is an error. [bin_data] is the
    output written so far, last byte first. *)
Definition a2b_finish (quad_pos : nat) (bin_data : list byte) : exn + bytes :=
  match quad_pos with
  | 0%nat => inr (rev bin_data)
  | 1%nat =>
      inl (PyErr binascii_Error
             ("Invalid base64-encoded string: number of data characters ("
              ++ str_int (Z.of_nat (List.length bin_data) / 3 * 4 + 1)
              ++ ") cannot be 1 more than a multiple of 4"))
  | _ => inl (PyErr binascii_Error "Incorrect padding")
  end.

(** The loop of [binascii.a2b_base64] with [strict_mode] off. A pad that
    completes a quad ends the parse; a pad elsewhere and every character
    outside the alphabet are skipped. *)
Fixpoint a2b_loop (ascii_data : string) (quad_pos : nat) (leftchar : N)
    (pads : nat) (bin_data : list byte) {struct ascii_data} : exn + bytes :=
  match ascii_data with
  | EmptyString => a2b_finish quad_pos bin_data
  | String this_ch rest =>
      if Ascii.eqb this_ch BASE64_PAD then
        if (2 <=? quad_pos)%nat && (4 <=? quad_pos + S pads)%nat
        then inr (rev bin_data)
        else a2b_loop rest quad_pos leftchar
               (if (2 <=? quad_pos)%nat then S pads else pads) bin_data
      else
        match a2b this_ch with
        | None => a2b_loop rest quad_pos leftchar pads bin_data
        | Some v =>
            match quad_pos with
            | 0%nat => a2b_loop rest 1 v 0 bin_data
            | 1%nat =>
                a2b_loop rest 2 (N.land v 15) 0
                  (store (N.lor (N.shiftl leftchar 2) (N.shiftr v 4)) :: bin_data)
            | 2%nat =>
                a2b_loop rest 3 (N.land v 3) 0
                  (store (N.lor (N.shiftl leftchar 4) (N.shiftr v 2)) :: bin_data)
            | _ =>
                a2b_loop rest 0 0 0
                  (store (N.lor (N.shiftl leftchar 6) v) :: bin_data)
            end
        end
  end.

Definition a2b_base64 (ascii_data : string) : exn + bytes :=
  a2b_loop ascii_data 0 0 0 [].

End binascii.

(** The alphabet of base64 text: the 64 digits and the pad. *)
Definition in_base64_alphabet (c : ascii) : bool :=
  match binascii.a2b c with
  | Some _ => true
  | None => Ascii.eqb c binascii.BASE64_PAD
  end.

Definition is_ascii (c : ascii) : bool := (N_of_ascii c <? 128)%N.

Fixpoint all_chars (p : ascii -> bool) (s : string) : bool :=
  match s with
  | EmptyString => true
  | String c rest => p c && all_chars p rest
  end.

(** [base64.b64encode(s)]. *)
Definition b64encode (s : bytes) : string := binascii.b2a_base64 s.

(** [base64.b64decode(s)] for a [str], with [validate] left at [False]:
    [s.encode('ascii')] first, then the lenient decoder. *)
Definition b64decode (s : string) : exn + bytes :=
  if all_chars is_ascii s then binascii.a2b_base64 s
  else inl (PyErr ValueError "string argument should contain only ASCII characters").

(** ** Data model *)

(** What the code reads of a [PIL.Image.Image]: [image.format] (absent after
    [copy()] and on images built in memory) and [image.size]. *)
Record Image := {
  format : option string;
  size : Z * Z
}.

(** [app/models/schemas.py]: [OutputFormat]. *)
Inductive OutputFormat := BASE64 | BINARY | URL.

Definition OutputFormat_eqb (a b : OutputFormat) : bool :=
  match a, b with
  | BASE64, BASE64 | BINARY, BINARY | URL, URL => true
  | _, _ => false
  end.

(** [app/models/schemas.py]: [ImageProcessRequest]. *)
Record ImageProcessRequest := {
  image_base64 : string;
  output_format : OutputFormat;
  post_process : bool
}.

(** The keyword arguments a call of rembg's [remove] carries; [None] is a
    keyword the call does not pass. *)
Record rembg_kwargs := {
  alpha_matting : option bool;
  alpha_matting_foreground_threshold : option Z;
  alpha_matting_background_threshold : option Z;
  alpha_matting_erode_size : option Z
}.

Definition no_kwargs : rembg_kwargs :=
  {| alpha_matting := None;
     alpha_matting_foreground_threshold := None;
     alpha_matting_background_threshold := None;
     alpha_matting_erode_size := None |}.

Record ModelCall := {
  call_image : Image;
  call_kwargs : rembg_kwargs
}.

Inductive LogLevel := INFO | ERROR.

(** ** Effects *)

(** The world a request runs in: how often [time.time()] was read, the calls
    made to the model and the levels of the log records written, oldest
    first. The text of a log record is not modelled. *)
Record World := {
  ticks : nat;
  model_calls : list ModelCall;
  log : list LogLevel
}.

Definition M (A : Type) : Type := World -> (exn + A) * World.

Definition ret {A} (a : A) : M A := fun w => (inr a, w).

Definition raise {A} (e : exn) : M A := fun w => (inl e, w).

Definition bind {A B} (m : M A) (k : A -> M B) : M B :=
  fun w =>
    match m w with
    | (inr a, w') => k a w'
    | (inl e, w') => (inl e, w')
    end.

(** [try: body except Exception as e: handler(e)]. *)
Definition try_except {A} (body : M A) (handler : exn -> M A) : M A :=
  fun w =>
    match body w with
    | (inr a, w') => (inr a, w')
    | (inl e, w') => handler e w'
    end.

(** A pure call that returns or raises. *)
Definition lift {A} (r : exn + A) : M A := fun w => (r, w).

Declare Scope py_scope.
Delimit Scope py_scope with py.
Notation "x <- m ;; k" := (bind m (fun x => k))
  (at level 61, m at next level, right associativity) : py_scope.
Notation "m ;;; k" := (bind m (fun _ => k))
  (at level 61, right associativity) : py_scope.

Definition logger (level : LogLevel) : M unit :=
  fun w => (inr tt, {| ticks := ticks w;
                       model_calls := model_calls w;
                       log := log w ++ [level] |}).

(** ** Test doubles for the third-party code

    A toy image container (a magic byte, then width and height in one byte
    each), a model that returns an image of the same size with no format
    tag, and a clock that advances by one per reading. The closed examples
    at the end of the file run the facade on them. *)

Module Stub.

Definition magic : byte := x89.

Definition Image_open (b : bytes) : exn + Image :=
  match b with
  | [m; w; h] =>
      if Byte.eqb m magic
      then inr {| format := Some "PNG";
                  size := (Z.of_N (Byte.to_N w), Z.of_N (Byte.to_N h)) |}
      else inl (PyErr (OtherError "UnidentifiedImageError") "cannot identify image file")
  | _ => inl (PyErr (OtherError "UnidentifiedImageError") "cannot identify image file")
  end.

Definition Image_load (image : Image) : exn + unit := inr tt.

Definition Image_save (image : Image) (fmt : string) : exn + bytes :=
  let '(width, height) := size image in
  match Byte.of_N (Z.to_N width), Byte.of_N (Z.to_N height) with
  | Some w, Some h => inr [magic; w; h]
  | _, _ => inl (PyErr OSError "image too large for the container")
  end.

Definition remove (image : Image) (kwargs : rembg_kwargs) : exn + Image :=
  inr {| format := None; size := size image |}.

Definition clock (n : nat) : Z := Z.of_nat n.

Definition round (x : Z) (ndigits : Z) : Z := x.

Definition str_float (x : Z) : string := str_int x.

Definition str_UnicodeEncodeError (s : string) : string :=
  "'latin-1' codec can't encode characters: ordinal not in range(256)".


Definition repr_SUPPORTED_FORMATS : string := "{'PNG', 'JPEG', 'JPG', 'WEBP', 'BMP'}".

Definition world0 : World := {| ticks := 0; model_calls := []; log := [] |}.

End Stub.

(** ** [app/services/image_processor.py] *)

Definition SUPPORTED_FORMATS : list string := ["PNG"; "JPEG"; "JPG"; "WEBP"; "BMP"].

Definition MAX_IMAGE_SIZE : Z := 4096 * 4096.

Definition too_small_message : string := "Image trop petite (minimum 10x10 pixels)".

Section Facade.

(** How Python prints the set [SUPPORTED_FORMATS]; the order of a set of
    strings changes from one interpreter run to the next. *)
Variable repr_SUPPORTED_FORMATS : string.

(** [float], subtraction on it and the built-in [round(x, ndigits)]. *)
Variable pyfloat : Type.
Variable float_sub : pyfloat -> pyfloat -> pyfloat.
Variable round : pyfloat -> Z -> pyfloat.

(** The wall clock: what the n-th call of [time.time()] returns. *)
Variable clock : nat -> pyfloat.

(** PIL: [Image.open(io.BytesIO(b))], [image.load()] and
    [image.save(buffer, format=f)] followed by [buffer.getvalue()]. *)
Variable Image_open : bytes -> exn + Image.
Variable Image_load : Image -> exn + unit.
Variable Image_save : Image -> string -> exn + bytes.

(** rembg: [remove(image, **kwargs)]. *)
Variable remove : Image -> rembg_kwargs -> exn + Image.

Local Open Scope py_scope.

Definition time_time : M pyfloat :=
  fun w => (inr (clock (ticks w)),
            {| ticks := S (ticks w);
               model_calls := model_calls w;
               log := log w |}).

(** A call of the model: it is recorded, then returns or raises. *)
Definition call_remove (image : Image) (kwargs : rembg_kwargs) : M Image :=
  fun w => (remove image kwargs,
            {| ticks := ticks w;
               model_calls := model_calls w ++ [{| call_image := image; call_kwargs := kwargs |}];
               log := log w |}).

(** [ImageProcessingService.validate_image]. *)
Definition validate_image (image : Image) : bool * option string :=
  if match format image with
     | Some f => negb (in_set f SUPPORTED_FORMATS)
     | None => false
     end
  then (false, Some ("Format " ++ str_optional (format image)
                     ++ " non supporté. Formats acceptés : " ++ repr_SUPPORTED_FORMATS))
  else
    let '(width, height) := size image in
    if (width * height >? MAX_IMAGE_SIZE)%Z
    then (false, Some ("Image trop grande (" ++ str_int width ++ "x" ++ str_int height
                       ++ "). Maximum : " ++ str_int MAX_IMAGE_SIZE ++ " pixels"))
    else if (width <? 10)%Z || (height <? 10)%Z
    then (false, Some too_small_message)
    else (true, None).

(** The keyword arguments of the call made when [post_process] is set. *)
Definition alpha_matting_kwargs : rembg_kwargs :=
  {| alpha_matting := Some true;
     alpha_matting_foreground_threshold := Some 240%Z;
     alpha_matting_background_threshold := Some 10%Z;
     alpha_matting_erode_size := Some 10%Z |}.

(** [ImageProcessingService.remove_background]. *)
Definition remove_background (input_image : Image) (post_process : bool)
  : M (Image * pyfloat) :=
  let '(is_valid, error_msg) := validate_image input_image in
  if negb is_valid then
    logger ERROR ;;;
    raise (PyErr ValueError (str_optional error_msg))
  else
    logger INFO ;;;
    start_time <- time_time ;;
    try_except
      (output_image <- (if post_process
                        then call_remove input_image alpha_matting_kwargs
                        else call_remove input_image no_kwargs) ;;
       end_time <- time_time ;;
       logger INFO ;;;
       ret (output_image, float_sub end_time start_time))
      (fun e =>
         logger ERROR ;;;
         raise (PyErr Exception ("Échec du traitement d'image : " ++ str_exn e))).

(** [ImageProcessingService.image_to_base64]. *)
Definition image_to_base64 (image : Image) (fmt : string) : exn + string :=
  match Image_save image fmt with
  | inl e => inl e
  | inr image_bytes => inr (b64encode image_bytes)
  end.

(** [ImageProcessingService.base64_to_image]. *)
Definition base64_to_image (base64_string : string) : M Image :=
  try_except
    (image_bytes <- lift (b64decode base64_string) ;;
     image <- lift (Image_open image_bytes) ;;
     lift (Image_load image) ;;;
     ret image)
    (fun e =>
       logger ERROR ;;;
       raise (PyErr ValueError ("Impossible de convertir le base64 en image : " ++ str_exn e))).

(** [ImageProcessingService.image_to_bytes]. *)
Definition image_to_bytes (image : Image) (fmt : string) : exn + bytes :=
  Image_save image fmt.

(** ** [app/models/schemas.py] *)

(** [ImageProcessRequest.validate_base64], run when a request is built. *)
Definition validate_base64 (v : string) : exn + string :=
  match b64decode v with
  | inl _ => inl (PyErr ValueError "Le base64 fourni est invalide")
  | inr _ => inr v
  end.

(** [ImageProcessResponse]. *)
Record ImageProcessResponse := {
  success : bool;
  response_output_format : OutputFormat;
  image_data : option string;
  processing_time : pyfloat;
  original_size : Z * Z;
  message : option string
}.

(** ** [app/routers/background.py] *)

(** The [try] block of [remove_background_base64]. *)
Definition remove_background_base64_body (request : ImageProcessRequest)
  : M ImageProcessResponse :=
  logger INFO ;;;
  input_image <- base64_to_image (image_base64 request) ;;
  result <- remove_background input_image (post_process request) ;;
  let '(output_image, elapsed) := result in
  data <- (if OutputFormat_eqb (output_format request) BASE64
           then lift (image_to_base64 output_image "PNG")
           else if OutputFormat_eqb (output_format request) URL
           then raise (HTTPException HTTP_501_NOT_IMPLEMENTED
                  "Le format 'url' n'est pas encore implémenté. Utilisez 'base64' ou 'binary'.")
           else lift (image_to_base64 output_image "PNG")) ;;
  ret {| success := true;
         response_output_format := output_format request;
         image_data := Some data;
         processing_time := round elapsed 3;
         original_size := size input_image;
         message := Some "Image traitée avec succès" |}.

(** The two [except] clauses of [remove_background_base64], [ValueError]
    first, then [Exception]. *)
Definition remove_background_base64_except (e : exn) : M ImageProcessResponse :=
  if isinstance_ValueError e then
    logger ERROR ;;;
    raise (HTTPException HTTP_400_BAD_REQUEST (str_exn e))
  else
    logger ERROR ;;;
    raise (HTTPException HTTP_500_INTERNAL_SERVER_ERROR
             ("Erreur lors du traitement de l'image : " ++ str_exn e)).

(** [remove_background_base64]: the body under its [except] clauses. *)
Definition remove_background_base64 (request : ImageProcessRequest)
  : M ImageProcessResponse :=
  try_except (remove_background_base64_body request) remove_background_base64_except.

(** [str(x)] for a [float]. *)
Variable str_float : pyfloat -> string.

(** What the file endpoint reads of FastAPI's [UploadFile]: its name, its
    declared type and the bytes [await file.read()] returns. *)
Record UploadFile := {
  filename : option string;
  content_type : option string;
  contents : bytes
}.

(** [fastapi.responses.Response]; [headers] in the order the code gives them. *)
Record Response := {
  content : bytes;
  media_type : string;
  headers : list (string * string)
}.

(** The message of the [UnicodeEncodeError] that [s.encode("latin-1")]
    raises on [s]. *)
Variable str_UnicodeEncodeError : string -> string.

(** [s.encode("latin-1")] works out: every character of [s] is at most
    U+00FF. In UTF-8 these are the characters whose bytes are all below
    0xC4 (one byte below 0x80, or the lead byte 0xC2 or 0xC3 and a
    continuation byte). *)
Definition latin1_encodable (s : string) : bool :=
  all_chars (fun c => (N_of_ascii c <? 196)%N) s.

Definition encode_latin1 (s : string) : exn + unit :=
  if latin1_encodable s then inr tt
  else inl (PyErr UnicodeEncodeError (str_UnicodeEncodeError s)).

(** Starlette's [Response.init_headers]: each header name and value is
    encoded as latin-1, in order. The names are put in lower case first,
    which leaves the ASCII names of this code as encodable as they were. *)
Fixpoint init_headers (headers : list (string * string)) : exn + unit :=
  match headers with
  | [] => inr tt
  | (name, value) :: rest =>
      match encode_latin1 name with
      | inl e => inl e
      | inr _ =>
          match encode_latin1 value with
          | inl e => inl e
          | inr _ => init_headers rest
          end
      end
  end.

(** [Response(content=..., media_type=..., headers=...)]: the headers
    given are encoded, then the content type. *)
Definition Response_init (content : bytes) (media_type : string)
    (headers : list (string * string)) : exn + Response :=
  match init_headers headers with
  | inl e => inl e
  | inr _ =>
      match encode_latin1 media_type with
      | inl e => inl e
      | inr _ => inr {| content := content; media_type := media_type; headers := headers |}
      end
  end.

(** The [try] block of [remove_background_file]. The image is opened by
    [Image.open] alone: this endpoint does not call [image.load()]. *)
Definition remove_background_file_body (file : UploadFile) (post_process : bool)
  : M Response :=
  logger INFO ;;;
  input_image <- lift (Image_open (contents file)) ;;
  result <- remove_background input_image post_process ;;
  let '(output_image, elapsed) := result in
  output_bytes <- lift (image_to_bytes output_image "PNG") ;;
  logger INFO ;;;
  lift (Response_init output_bytes "image/png"
          [("Content-Disposition",
            "attachment; filename=nobg_" ++ str_optional (filename file));
           ("X-Processing-Time", str_float (round elapsed 3))]).

(** The two [except] clauses of [remove_background_file]. *)
Definition remove_background_file_except (e : exn) : M Response :=
  if isinstance_ValueError e then
    logger ERROR ;;;
    raise (HTTPException HTTP_400_BAD_REQUEST (str_exn e))
  else
    logger ERROR ;;;
    raise (HTTPException HTTP_500_INTERNAL_SERVER_ERROR
             ("Erreur lors du traitement du fichier : " ++ str_exn e)).

(** [remove_background_file]: the body under its [except] clauses. *)
Definition remove_background_file (file : UploadFile) (post_process : bool)
  : M Response :=
  try_except (remove_background_file_body file post_process) remove_background_file_except.

(** ** Vocabulary of the properties *)

(** The format tag is absent or one of the supported ones. *)
Definition supported_or_absent (image : Image) : Prop :=
  match format image with
  | Some f => In f SUPPORTED_FORMATS
  | None => True
  end.

(** The reasons the validator gives, told apart by how the message starts. *)
Definition is_too_large_reason (msg : string) : bool := String.prefix "Image trop grande" msg.

Definition is_too_small_reason (msg : string) : bool := String.prefix "Image trop petite" msg.

Definition is_format_reason (msg : string) : bool := String.prefix "Format " msg.

(** The world after one more log record. *)
Definition logged (level : LogLevel) (w : World) : World :=
  {| ticks := ticks w; model_calls := model_calls w; log := log w ++ [level] |}.

(** The world after the invoker's call of the model: one info record, one
    clock read, the call. *)
Definition model_called (input_image : Image) (kwargs : rembg_kwargs) (w : World) : World :=
  {| ticks := S (ticks w);
     model_calls := model_calls w ++ [{| call_image := input_image; call_kwargs := kwargs |}];
     log := log w ++ [INFO] |}.

(** Some character of the text is not ASCII. *)
Definition has_non_ascii (s : string) : Prop :=
  exists c, In c (list_ascii_of_string s) /\ is_ascii c = false.

(** Some character of the text is outside the base64 alphabet. *)
Definition has_non_alphabet (s : string) : Prop :=
  exists c, In c (list_ascii_of_string s) /\ in_base64_alphabet c = false.

(** The character is one of the 64 digits of base64. *)
Definition is_base64_digit (c : ascii) : bool :=
  match binascii.a2b c with
  | Some _ => true
  | None => false
  end.

(** The outcome is an HTTP error of status 400 or 500. *)
Definition client_or_server_error {A} (r : exn + A) : Prop :=
  exists status detail,
    r = inl (HTTPException status detail) /\ (status = 400%Z \/ status = 500%Z).

(** ** Facts on the base64 codec *)

Lemma in_byte_values (n : N) : (n < 256)%N -> In n byte_values.
Proof.
  intros H. unfold byte_values. apply in_map_iff.
  exists (N.to_nat n). split; [apply N2Nat.id | apply in_seq; lia].
Qed.

Lemma to_N_lt_256 (x : byte) : (Byte.to_N x < 256)%N.
Proof. pose proof (Byte.to_N_bounded x). lia. Qed.

(** A property of one or two bytes that a boolean function decides holds as
    soon as the function accepts all byte values. *)
Lemma forall_byte (P : N -> bool) :
  forallb P byte_values = true -> forall x : byte, P (Byte.to_N x) = true.
Proof.
  intros H x. rewrite forallb_forall in H.
  apply H, in_byte_values, to_N_lt_256.
Qed.

Lemma forall_byte2 (P : N -> N -> bool) :
  forallb (fun a => forallb (P a) byte_values) byte_values = true ->
  forall x y : byte, P (Byte.to_N x) (Byte.to_N y) = true.
Proof.
  intros H x y. rewrite forallb_forall in H.
  specialize (H _ (in_byte_values _ (to_N_lt_256 x))).
  rewrite forallb_forall in H.
  apply H, in_byte_values, to_N_lt_256.
Qed.

Lemma store_to_N (n : N) (x : byte) : (n mod 256 = Byte.to_N x)%N -> binascii.store n = x.
Proof. intros H. unfold binascii.store. rewrite H, Byte.of_to_N. reflexivity. Qed.

Lemma a2b_b2a (v : N) : (v < 64)%N -> binascii.a2b (binascii.b2a v) = Some v.
Proof.
  intros H.
  assert (Hall : forallb (fun n => match binascii.a2b (binascii.b2a n) with
                                   | Some m => (m =? n)%N
                                   | None => false
                                   end) (map N.of_nat (seq 0 64)) = true)
    by (vm_compute; reflexivity).
  rewrite forallb_forall in Hall.
  assert (Hin : In v (map N.of_nat (seq 0 64))).
  { apply in_map_iff. exists (N.to_nat v). split; [apply N2Nat.id | apply in_seq; lia]. }
  specialize (Hall _ Hin).
  destruct (binascii.a2b (binascii.b2a v)) as [m|]; [| discriminate].
  apply N.eqb_eq in Hall. congruence.
Qed.

Lemma b2a_plain (v : N) :
  (v < 64)%N ->
  Ascii.eqb (binascii.b2a v) binascii.BASE64_PAD = false /\ is_ascii (binascii.b2a v) = true.
Proof.
  intros H.
  assert (Hall : forallb (fun n => negb (Ascii.eqb (binascii.b2a n) binascii.BASE64_PAD)
                                   && is_ascii (binascii.b2a n))
                   (map N.of_nat (seq 0 64)) = true)
    by (vm_compute; reflexivity).
  rewrite forallb_forall in Hall.
  assert (Hin : In v (map N.of_nat (seq 0 64))).
  { apply in_map_iff. exists (N.to_nat v). split; [apply N2Nat.id | apply in_seq; lia]. }
  specialize (Hall _ Hin). apply andb_true_iff in Hall. destruct Hall as [Hp Ha].
  apply negb_true_iff in Hp. auto.
Qed.

(** One turn of the decoder's loop on a base64 digit. *)
Lemma a2b_loop_digit (v : N) rest quad_pos leftchar pads bin_data :
  (v < 64)%N ->
  binascii.a2b_loop (String (binascii.b2a v) rest) quad_pos leftchar pads bin_data =
  match quad_pos with
  | 0%nat => binascii.a2b_loop rest 1 v 0 bin_data
  | 1%nat =>
      binascii.a2b_loop rest 2 (N.land v 15) 0
        (binascii.store (N.lor (N.shiftl leftchar 2) (N.shiftr v 4)) :: bin_data)
  | 2%nat =>
      binascii.a2b_loop rest 3 (N.land v 3) 0
        (binascii.store (N.lor (N.shiftl leftchar 4) (N.shiftr v 2)) :: bin_data)
  | _ =>
      binascii.a2b_loop rest 0 0 0
        (binascii.store (N.lor (N.shiftl leftchar 6) v) :: bin_data)
  end.
Proof.
  intros H. cbn [binascii.a2b_loop].
  rewrite (proj1 (b2a_plain v H)), (a2b_b2a v H). reflexivity.
Qed.

(** One turn of the loop on a character that is neither a digit nor the
    pad: the character is dropped and the state is kept. *)
Lemma a2b_loop_skip (c : ascii) rest quad_pos leftchar pads bin_data :
  in_base64_alphabet c = false ->
  binascii.a2b_loop (String c rest) quad_pos leftchar pads bin_data =
  binascii.a2b_loop rest quad_pos leftchar pads bin_data.
Proof.
  unfold in_base64_alphabet. intros H. cbn [binascii.a2b_loop].
  destruct (binascii.a2b c); [discriminate |]. rewrite H. reflexivity.
Qed.

(** The same anywhere in the text. *)
Lemma a2b_loop_skip_app (c : ascii) (before after : string) :
  in_base64_alphabet c = false ->
  forall quad_pos leftchar pads bin_data,
    binascii.a2b_loop (before ++ String c after) quad_pos leftchar pads bin_data =
    binascii.a2b_loop (before ++ after) quad_pos leftchar pads bin_data.
Proof.
  intros H. induction before as [| d before IH]; intros quad_pos leftchar pads bin_data.
  - apply a2b_loop_skip, H.
  - cbn [append binascii.a2b_loop].
    destruct (Ascii.eqb d binascii.BASE64_PAD).
    + destruct ((2 <=? quad_pos)%nat && (4 <=? quad_pos + S pads)%nat); [reflexivity | apply IH].
    + destruct (binascii.a2b d); [| apply IH].
      destruct quad_pos as [| [| [| q]]]; apply IH.
Qed.

Lemma all_chars_app (p : ascii -> bool) (s t : string) :
  all_chars p (s ++ t) = all_chars p s && all_chars p t.
Proof.
  induction s as [| c s IH]; cbn [append all_chars]; [reflexivity |].
  rewrite IH. apply andb_assoc.
Qed.

(** [b64decode] drops an ASCII character outside the alphabet wherever it
    stands. *)
Lemma b64decode_discards (c : ascii) (before after : string) :
  is_ascii c = true ->
  in_base64_alphabet c = false ->
  b64decode (before ++ String c after) = b64decode (before ++ after).
Proof.
  intros Ha Hc. unfold b64decode, binascii.a2b_base64.
  rewrite !all_chars_app. cbn [all_chars]. rewrite Ha. cbn [andb].
  destruct (all_chars is_ascii before && all_chars is_ascii after); [| reflexivity].
  apply a2b_loop_skip_app, Hc.
Qed.

(** Induction on a list three elements at a time, as the encoder reads it. *)
Lemma list_ind3 {A} (P : list A -> Prop) :
  P [] ->
  (forall x, P [x]) ->
  (forall x y, P [x; y]) ->
  (forall x y z l, P l -> P (x :: y :: z :: l)) ->
  forall l, P l.
Proof.
  intros H0 H1 H2 H3.
  assert (H : forall l, P l /\ (forall x, P (x :: l)) /\ (forall x y, P (x :: y :: l))).
  { induction l as [| a l [IHa [IHb IHc]]].
    - auto.
    - repeat split; auto. }
  intros l. apply H.
Qed.

(** The six-bit digits of a group are below 64. *)
Lemma sextets_bounded (x y : byte) :
  let a := Byte.to_N x in
  let b := Byte.to_N y in
  (N.shiftr a 2 < 64)%N /\
  (N.lor (N.shiftl (N.land a 3) 4) (N.shiftr b 4) < 64)%N /\
  (N.lor (N.shiftl (N.land a 15) 2) (N.shiftr b 6) < 64)%N /\
  (N.land a 63 < 64)%N /\
  (N.shiftl (N.land a 3) 4 < 64)%N /\
  (N.shiftl (N.land a 15) 2 < 64)%N.
Proof.
  intros a b.
  pose proof (forall_byte2
    (fun a b => (N.shiftr a 2 <? 64)%N
             && (N.lor (N.shiftl (N.land a 3) 4) (N.shiftr b 4) <? 64)%N
             && (N.lor (N.shiftl (N.land a 15) 2) (N.shiftr b 6) <? 64)%N
             && (N.land a 63 <? 64)%N
             && (N.shiftl (N.land a 3) 4 <? 64)%N
             && (N.shiftl (N.land a 15) 2 <? 64)%N)
    ltac:(vm_compute; reflexivity) x y) as H.
  cbv beta in H. fold a b in H.
  repeat (apply andb_true_iff in H; destruct H as [H ?]).
  repeat split; apply N.ltb_lt; assumption.
Qed.

(** What the decoder rebuilds from the digits of a group. *)
Lemma sextets_rebuild (x y : byte) :
  let a := Byte.to_N x in
  let b := Byte.to_N y in
  let s2 := N.lor (N.shiftl (N.land a 3) 4) (N.shiftr b 4) in
  let s3 := N.lor (N.shiftl (N.land a 15) 2) (N.shiftr b 6) in
  (N.lor (N.shiftl (N.shiftr a 2) 2) (N.shiftr s2 4) mod 256 = a)%N /\
  (N.lor (N.shiftl (N.shiftr a 2) 2) (N.shiftr (N.shiftl (N.land a 3) 4) 4) mod 256 = a)%N /\
  (N.land s2 15 = N.shiftr b 4)%N /\
  (N.shiftr s3 2 = N.land a 15)%N /\
  (N.shiftr (N.shiftl (N.land a 15) 2) 2 = N.land a 15)%N /\
  (N.land s3 3 = N.shiftr b 6)%N /\
  (N.lor (N.shiftl (N.shiftr a 4) 4) (N.land a 15) mod 256 = a)%N /\
  (N.lor (N.shiftl (N.shiftr a 6) 6) (N.land a 63) mod 256 = a)%N.
Proof.
  intros a b s2 s3.
  pose proof (forall_byte2
    (fun a b =>
       let s2 := N.lor (N.shiftl (N.land a 3) 4) (N.shiftr b 4) in
       let s3 := N.lor (N.shiftl (N.land a 15) 2) (N.shiftr b 6) in
       (N.lor (N.shiftl (N.shiftr a 2) 2) (N.shiftr s2 4) mod 256 =? a)%N
       && (N.lor (N.shiftl (N.shiftr a 2) 2) (N.shiftr (N.shiftl (N.land a 3) 4) 4) mod 256 =? a)%N
       && (N.land s2 15 =? N.shiftr b 4)%N
       && (N.shiftr s3 2 =? N.land a 15)%N
       && (N.shiftr (N.shiftl (N.land a 15) 2) 2 =? N.land a 15)%N
       && (N.land s3 3 =? N.shiftr b 6)%N
       && (N.lor (N.shiftl (N.shiftr a 4) 4) (N.land a 15) mod 256 =? a)%N
       && (N.lor (N.shiftl (N.shiftr a 6) 6) (N.land a 63) mod 256 =? a)%N)
    ltac:(vm_compute; reflexivity) x y) as H.
  cbv beta zeta in H. fold a b in H. fold s2 s3 in H.
  repeat (apply andb_true_iff in H; destruct H as [H ?]).
  repeat split; apply N.eqb_eq; assumption.
Qed.

(** One turn of the loop on the pad. *)
Lemma a2b_loop_pad rest quad_pos leftchar pads bin_data :
  binascii.a2b_loop (String binascii.BASE64_PAD rest) quad_pos leftchar pads bin_data =
  if (2 <=? quad_pos)%nat && (4 <=? quad_pos + S pads)%nat
  then inr (rev bin_data)
  else binascii.a2b_loop rest quad_pos leftchar
         (if (2 <=? quad_pos)%nat then S pads else pads) bin_data.
Proof. cbn [binascii.a2b_loop]. rewrite Ascii.eqb_refl. reflexivity. Qed.

(** Decoding what the encoder wrote gives the bytes back, after whatever the
    decoder had already written. *)
Lemma a2b_loop_b2a_base64 (data : bytes) :
  forall leftchar pads bin_data,
    binascii.a2b_loop (binascii.b2a_base64 data) 0 leftchar pads bin_data =
    inr (rev bin_data ++ data)%list.
Proof.
  induction data as [| x | x y | x y z rest IH] using list_ind3;
    intros leftchar pads bin_data.
  - cbn. rewrite app_nil_r. reflexivity.
  - destruct (sextets_bounded x x) as (B1 & _ & _ & _ & B5 & _).
    destruct (sextets_rebuild x x) as (_ & R2 & _).
    cbn [binascii.b2a_base64].
    rewrite (a2b_loop_digit _ _ _ _ _ _ B1), (a2b_loop_digit _ _ _ _ _ _ B5).
    rewrite !a2b_loop_pad. cbn [Nat.leb Nat.add andb rev].
    rewrite (store_to_N _ x R2). reflexivity.
  - destruct (sextets_bounded x y) as (B1 & B2 & _).
    destruct (sextets_bounded y y) as (_ & _ & _ & _ & _ & B6).
    destruct (sextets_rebuild x y) as (R1 & _ & R3 & _).
    destruct (sextets_rebuild y y) as (_ & _ & _ & _ & R5 & _ & R7 & _).
    cbn [binascii.b2a_base64].
    rewrite (a2b_loop_digit _ _ _ _ _ _ B1), (a2b_loop_digit _ _ _ _ _ _ B2),
      (a2b_loop_digit _ _ _ _ _ _ B6).
    rewrite a2b_loop_pad. cbn [Nat.leb Nat.add andb rev].
    rewrite (store_to_N _ x R1), R3, R5, (store_to_N _ y R7).
    rewrite <- app_assoc. reflexivity.
  - destruct (sextets_bounded x y) as (B1 & B2 & _).
    destruct (sextets_bounded y z) as (_ & _ & B3 & _).
    destruct (sextets_bounded z z) as (_ & _ & _ & B4 & _).
    destruct (sextets_rebuild x y) as (R1 & _ & R3 & _).
    destruct (sextets_rebuild y z) as (_ & _ & _ & R4 & _ & R6 & R7 & _).
    destruct (sextets_rebuild z z) as (_ & _ & _ & _ & _ & _ & _ & R8).
    cbn [binascii.b2a_base64].
    rewrite (a2b_loop_digit _ _ _ _ _ _ B1), (a2b_loop_digit _ _ _ _ _ _ B2),
      (a2b_loop_digit _ _ _ _ _ _ B3), (a2b_loop_digit _ _ _ _ _ _ B4).
    rewrite IH. cbn [rev].
    rewrite (store_to_N _ x R1), R3, R4, (store_to_N _ y R7), R6, (store_to_N _ z R8).
    rewrite <- !app_assoc. reflexivity.
Qed.

(** The encoder writes ASCII only. *)
Lemma b2a_base64_ascii (data : bytes) :
  all_chars is_ascii (binascii.b2a_base64 data) = true.
Proof.
  induction data as [| x | x y | x y z rest IH] using list_ind3.
  - reflexivity.
  - destruct (sextets_bounded x x) as (B1 & _ & _ & _ & B5 & _).
    cbn [binascii.b2a_base64 all_chars].
    rewrite (proj2 (b2a_plain _ B1)), (proj2 (b2a_plain _ B5)). reflexivity.
  - destruct (sextets_bounded x y) as (B1 & B2 & _).
    destruct (sextets_bounded y y) as (_ & _ & _ & _ & _ & B6).
    cbn [binascii.b2a_base64 all_chars].
    rewrite (proj2 (b2a_plain _ B1)), (proj2 (b2a_plain _ B2)), (proj2 (b2a_plain _ B6)).
    reflexivity.
  - destruct (sextets_bounded x y) as (B1 & B2 & _).
    destruct (sextets_bounded y z) as (_ & _ & B3 & _).
    destruct (sextets_bounded z z) as (_ & _ & _ & B4 & _).
    cbn [binascii.b2a_base64 all_chars].
    rewrite (proj2 (b2a_plain _ B1)), (proj2 (b2a_plain _ B2)),
      (proj2 (b2a_plain _ B3)), (proj2 (b2a_plain _ B4)), IH.
    reflexivity.
Qed.

(** [b64decode(b64encode(data)) == data]. *)
Lemma b64decode_b64encode (data : bytes) : b64decode (b64encode data) = inr data.
Proof.
  unfold b64decode, b64encode, binascii.a2b_base64.
  rewrite b2a_base64_ascii. apply a2b_loop_b2a_base64.
Qed.

(** A character above ASCII makes [b64decode] raise [ValueError]. *)
Lemma b64decode_non_ascii (s : string) :
  all_chars is_ascii s = false ->
  b64decode s = inl (PyErr ValueError "string argument should contain only ASCII characters").
Proof. intros H. unfold b64decode. rewrite H. reflexivity. Qed.

(** Whatever the decoder raises is a [binascii.Error], which derives from
    [ValueError]. *)
Lemma a2b_loop_raises_ValueError (s : string) :
  forall quad_pos leftchar pads bin_data e,
    binascii.a2b_loop s quad_pos leftchar pads bin_data = inl e ->
    isinstance_ValueError e = true.
Proof.
  induction s as [| c s IH]; intros quad_pos leftchar pads bin_data e.
  - cbn [binascii.a2b_loop]. unfold binascii.a2b_finish.
    destruct quad_pos as [| [| q]]; intros H; inversion H; reflexivity.
  - cbn [binascii.a2b_loop].
    destruct (Ascii.eqb c binascii.BASE64_PAD).
    + destruct ((2 <=? quad_pos)%nat && (4 <=? quad_pos + S pads)%nat);
        [discriminate | apply IH].
    + destruct (binascii.a2b c); [| apply IH].
      destruct quad_pos as [| [| [| q]]]; apply IH.
Qed.

Lemma b64decode_raises_ValueError (s : string) (e : exn) :
  b64decode s = inl e -> isinstance_ValueError e = true.
Proof.
  unfold b64decode, binascii.a2b_base64.
  destruct (all_chars is_ascii s).
  - apply a2b_loop_raises_ValueError.
  - intros H. inversion H. reflexivity.
Qed.

(** ** The validator *)

Lemma in_set_In (s : string) (l : list string) : In s l -> in_set s l = true.
Proof.
  intros H. unfold in_set. apply existsb_exists.
  exists s. split; [assumption | apply String.eqb_refl].
Qed.

Lemma in_set_true_In (s : string) (l : list string) : in_set s l = true -> In s l.
Proof.
  unfold in_set. intros H. apply existsb_exists in H.
  destruct H as (t & Hin & Heq). apply String.eqb_eq in Heq. subst. assumption.
Qed.

(** With a supported or absent format tag the format check is passed. *)
Lemma format_check_passes (image : Image) :
  supported_or_absent image ->
  match format image with
  | Some f => negb (in_set f SUPPORTED_FORMATS)
  | None => false
  end = false.
Proof.
  unfold supported_or_absent. destruct (format image) as [f |]; [| reflexivity].
  intros H. rewrite (in_set_In _ _ H). reflexivity.
Qed.

(** The validator on an image past the format check. *)
Lemma validate_image_sizes (image : Image) (width height : Z) :
  supported_or_absent image ->
  size image = (width, height) ->
  validate_image image =
  if (width * height >? MAX_IMAGE_SIZE)%Z
  then (false, Some ("Image trop grande (" ++ str_int width ++ "x" ++ str_int height
                     ++ "). Maximum : " ++ str_int MAX_IMAGE_SIZE ++ " pixels"))
  else if (width <? 10)%Z || (height <? 10)%Z
  then (false, Some too_small_message)
  else (true, None).
Proof.
  intros Hf Hs. unfold validate_image.
  rewrite (format_check_passes image Hf), Hs. reflexivity.
Qed.

(** The validator on an image with an unsupported format tag. *)
Lemma validate_image_format (image : Image) (f : string) :
  format image = Some f ->
  ~ In f SUPPORTED_FORMATS ->
  validate_image image =
  (false, Some ("Format " ++ f ++ " non supporté. Formats acceptés : "
                ++ repr_SUPPORTED_FORMATS)).
Proof.
  intros Hf Hn. unfold validate_image. rewrite Hf.
  destruct (in_set f SUPPORTED_FORMATS) eqn:E.
  - apply in_set_true_In in E. contradiction.
  - reflexivity.
Qed.

(** The validator answers [(True, None)] or [(False, message)]. *)
Lemma validate_image_shape (image : Image) :
  validate_image image = (true, None) \/
  exists msg, validate_image image = (false, Some msg).
Proof.
  unfold validate_image.
  destruct (match format image with
            | Some f => negb (in_set f SUPPORTED_FORMATS)
            | None => false
            end); [right; eauto |].
  destruct (size image) as [width height].
  destruct (width * height >? MAX_IMAGE_SIZE)%Z; [right; eauto |].
  destruct ((width <? 10)%Z || (height <? 10)%Z); [right; eauto | left; reflexivity].
Qed.

Lemma string_app_assoc (s t u : string) : (s ++ t) ++ u = s ++ t ++ u.
Proof. induction s as [| c s IH]; cbn [append]; [reflexivity | rewrite IH; reflexivity]. Qed.

Lemma prefix_app (p s : string) : String.prefix p (p ++ s) = true.
Proof.
  induction p as [| c p IH]; cbn [append String.prefix].
  - destruct s; reflexivity.
  - destruct (ascii_dec c c) as [_ | n]; [assumption | contradiction n; reflexivity].
Qed.

(** [needle in before + needle + after]. *)
Lemma contains_app (before needle after : string) :
  contains (before ++ needle ++ after) needle = true.
Proof.
  induction before as [| c before IH].
  - cbn [append]. destruct (needle ++ after) eqn:E; cbn [contains];
      rewrite <- E, prefix_app; reflexivity.
  - cbn [append contains]. rewrite IH.
    destruct (String.prefix needle (String c (before ++ needle ++ after))); reflexivity.
Qed.

(** C1. An image whose format tag is absent or supported, whose area is at
    most 16,777,216 pixels and whose sides are at least 10 pixels passes
    validation, with no error message. *)
Theorem validate_image_accepts (image : Image) (width height : Z) :
  size image = (width, height) ->
  supported_or_absent image ->
  (width * height <= 16777216)%Z ->
  (10 <= width)%Z ->
  (10 <= height)%Z ->
  validate_image image = (true, None).
Proof.
  intros Hs Hf Harea Hw Hh.
  rewrite (validate_image_sizes image width height Hf Hs).
  destruct (Z.gtb_spec (width * height) MAX_IMAGE_SIZE) as [Hgt | _].
  - unfold MAX_IMAGE_SIZE in Hgt. lia.
  - destruct (Z.ltb_spec width 10); [lia |].
    destruct (Z.ltb_spec height 10); [lia | reflexivity].
Qed.

(** C10. The validator returns for every image, and its answer is valid
    exactly when it carries no message: a failure names one reason, a
    success none. *)
Theorem validate_image_well_formed (image : Image) :
  (fst (validate_image image) = true <-> snd (validate_image image) = None) /\
  (fst (validate_image image) = false <->
   exists msg, snd (validate_image image) = Some msg).
Proof.
  destruct (validate_image_shape image) as [H | [msg H]]; rewrite H; cbn [fst snd].
  - split; split; intros H'; try reflexivity; try discriminate.
    destruct H' as [m Hm]. discriminate.
  - split; split; intros H'; try reflexivity; try discriminate.
    exists msg. reflexivity.
Qed.

(** C5, as amended. An image with a supported or absent format tag and a
    side below 10 pixels fails validation whatever the other side is; the
    reason is the too-small one when the area is at most 16,777,216 pixels,
    and the too-large one above that. *)
Theorem validate_image_small_side (image : Image) (width height : Z) :
  size image = (width, height) ->
  supported_or_absent image ->
  (width < 10)%Z \/ (height < 10)%Z ->
  fst (validate_image image) = false /\
  ((width * height <= 16777216)%Z ->
   validate_image image = (false, Some too_small_message)) /\
  ((width * height > 16777216)%Z ->
   exists msg, validate_image image = (false, Some msg) /\ is_too_large_reason msg = true).
Proof.
  intros Hs Hf Hside.
  rewrite (validate_image_sizes image width height Hf Hs).
  destruct (Z.gtb_spec (width * height) MAX_IMAGE_SIZE) as [Hgt | Hle];
    unfold MAX_IMAGE_SIZE in *.
  - split; [reflexivity |]. split; [intros; lia |].
    intros _. eexists. split; [reflexivity | reflexivity].
  - assert (Hor : (width <? 10)%Z || (height <? 10)%Z = true).
    { apply orb_true_iff. destruct Hside; [left | right]; apply Z.ltb_lt; assumption. }
    rewrite Hor. split; [reflexivity |]. split; [reflexivity | intros; lia].
Qed.

(** C8, as amended. An image with a supported or absent format tag whose
    area exceeds 16,777,216 pixels fails validation with the too-large
    reason; the message cites the width and the height of the image, as
    [<width>x<height>], and the limit 16777216. *)
Theorem validate_image_too_large (image : Image) (width height : Z) :
  size image = (width, height) ->
  supported_or_absent image ->
  (width * height > 16777216)%Z ->
  exists msg,
    validate_image image = (false, Some msg) /\
    msg = "Image trop grande (" ++ str_int width ++ "x" ++ str_int height
          ++ "). Maximum : 16777216 pixels" /\
    is_too_large_reason msg = true /\
    contains msg (str_int width ++ "x" ++ str_int height) = true /\
    contains msg "16777216" = true.
Proof.
  intros Hs Hf Harea.
  rewrite (validate_image_sizes image width height Hf Hs).
  destruct (Z.gtb_spec (width * height) MAX_IMAGE_SIZE) as [_ | Hle];
    [| unfold MAX_IMAGE_SIZE in Hle; lia].
  eexists. split; [reflexivity |]. split; [reflexivity |].
  split; [reflexivity |]. split.
  - change (str_int MAX_IMAGE_SIZE) with "16777216".
    replace ("Image trop grande (" ++ str_int width ++ "x" ++ str_int height
             ++ "). Maximum : " ++ "16777216" ++ " pixels")
      with ("Image trop grande (" ++ (str_int width ++ "x" ++ str_int height)
            ++ "). Maximum : 16777216 pixels").
    + apply contains_app.
    + rewrite !string_app_assoc. reflexivity.
  - change (str_int MAX_IMAGE_SIZE) with "16777216".
    replace ("Image trop grande (" ++ str_int width ++ "x" ++ str_int height
             ++ "). Maximum : " ++ "16777216" ++ " pixels")
      with (("Image trop grande (" ++ str_int width ++ "x" ++ str_int height
             ++ "). Maximum : ") ++ "16777216" ++ " pixels").
    + apply contains_app.
    + rewrite !string_app_assoc. reflexivity.
Qed.

(** ** The background-removal invoker *)

(** The invoker on an image the validator rejects: one error record is
    logged and [ValueError] is raised with the validator's message. *)
Lemma remove_background_invalid (input_image : Image) (post_process : bool)
    (msg : string) (w : World) :
  validate_image input_image = (false, Some msg) ->
  remove_background input_image post_process w =
  (inl (PyErr ValueError msg), logged ERROR w).
Proof.
  intros H. unfold remove_background. rewrite H. reflexivity.
Qed.

(** The invoker on an image the validator accepts. *)
Lemma remove_background_valid (input_image : Image) (post_process : bool) (w : World) :
  validate_image input_image = (true, None) ->
  let kwargs := if post_process then alpha_matting_kwargs else no_kwargs in
  let w1 := model_called input_image kwargs w in
  remove_background input_image post_process w =
  match remove input_image kwargs with
  | inr output_image =>
      (inr (output_image, float_sub (clock (S (ticks w))) (clock (ticks w))),
       {| ticks := S (S (ticks w));
          model_calls := model_calls w1;
          log := log w1 ++ [INFO] |})
  | inl e =>
      (inl (PyErr Exception ("Échec du traitement d'image : " ++ str_exn e)),
       logged ERROR w1)
  end.
Proof.
  intros H kwargs w1. unfold remove_background. rewrite H.
  unfold bind, try_except, logger, time_time, call_remove, ret, raise, logged.
  cbn [negb ticks model_calls log].
  subst w1 kwargs. unfold model_called.
  destruct post_process; cbn [ticks model_calls log];
    match goal with |- context [remove ?i ?k] => destruct (remove i k) end;
    reflexivity.
Qed.

(** C2, as amended. On an image that fails validation the invoker does
    nothing but validate and log: it raises [ValueError] with exactly the
    validator's message, reads no clock and never calls the model. In
    particular a 5x5 image whose format tag is absent or supported gets the
    too-small message. *)
Theorem remove_background_rejects_invalid (input_image : Image) (post_process : bool)
    (w : World) :
  fst (validate_image input_image) = false ->
  exists msg,
    snd (validate_image input_image) = Some msg /\
    remove_background input_image post_process w =
      (inl (PyErr ValueError msg), logged ERROR w) /\
    model_calls (snd (remove_background input_image post_process w)) = model_calls w /\
    ticks (snd (remove_background input_image post_process w)) = ticks w /\
    (size input_image = (5, 5)%Z -> supported_or_absent input_image ->
     msg = too_small_message).
Proof.
  intros Hinvalid.
  destruct (validate_image_shape input_image) as [H | [msg H]].
  - rewrite H in Hinvalid. discriminate.
  - exists msg. rewrite (remove_background_invalid _ _ _ _ H), H.
    repeat split.
    intros Hs Hf. rewrite (validate_image_sizes _ _ _ Hf Hs) in H.
    vm_compute in H. injection H as <-. reflexivity.
Qed.

(** C3. On a valid image the invoker calls the model exactly once: with no
    keyword argument when [post_process] is off, and with alpha matting on,
    foreground threshold 240, background threshold 10 and erosion size 10
    when it is on. *)
Theorem remove_background_calls_model_once (input_image : Image) (post_process : bool)
    (w : World) :
  fst (validate_image input_image) = true ->
  model_calls (snd (remove_background input_image post_process w)) =
  (model_calls w ++
   [{| call_image := input_image;
       call_kwargs :=
         if post_process
         then {| alpha_matting := Some true;
                 alpha_matting_foreground_threshold := Some 240%Z;
                 alpha_matting_background_threshold := Some 10%Z;
                 alpha_matting_erode_size := Some 10%Z |}
         else {| alpha_matting := None;
                 alpha_matting_foreground_threshold := None;
                 alpha_matting_background_threshold := None;
                 alpha_matting_erode_size := None |} |}])%list.
Proof.
  intros Hvalid.
  destruct (validate_image_shape input_image) as [H | [msg H]].
  - rewrite (remove_background_valid _ post_process w H). cbv zeta.
    destruct post_process;
      match goal with |- context [remove ?i ?k] => destruct (remove i k) end;
      reflexivity.
  - rewrite H in Hvalid. discriminate.
Qed.

(** ** The encoding helpers *)

(** [base64_to_image] on text that decodes to bytes PIL reads. *)
Lemma base64_to_image_ok (base64_string : string) (image_bytes : bytes)
    (image : Image) (w : World) :
  b64decode base64_string = inr image_bytes ->
  Image_open image_bytes = inr image ->
  Image_load image = inr tt ->
  base64_to_image base64_string w = (inr image, w).
Proof.
  intros Hd Ho Hl. unfold base64_to_image, try_except, bind, lift, ret.
  rewrite Hd, Ho, Hl. reflexivity.
Qed.

(** [base64_to_image] on text that [b64decode] rejects. *)
Lemma base64_to_image_decode_failure (base64_string : string) (e : exn) (w : World) :
  b64decode base64_string = inl e ->
  base64_to_image base64_string w =
  (inl (PyErr ValueError ("Impossible de convertir le base64 en image : " ++ str_exn e)),
   logged ERROR w).
Proof.
  intros Hd. unfold base64_to_image, try_except, bind, lift, ret.
  rewrite Hd. reflexivity.
Qed.

(** [base64_to_image] either returns an image and leaves the world alone, or
    logs one error record and raises [ValueError]. *)
Lemma base64_to_image_cases (base64_string : string) (w : World) :
  (exists image, base64_to_image base64_string w = (inr image, w)) \/
  (exists msg, base64_to_image base64_string w =
               (inl (PyErr ValueError msg), logged ERROR w)).
Proof.
  unfold base64_to_image, try_except, bind, lift, ret, raise, logger, logged.
  destruct (b64decode base64_string) as [e | image_bytes]; [right; eauto |].
  destruct (Image_open image_bytes) as [e | image]; [right; eauto |].
  destruct (Image_load image) as [e | []]; [right; eauto | left; eauto].
Qed.

(** [base64_to_image] reads only what [b64decode] makes of the text. *)
Lemma base64_to_image_ext (s t : string) (w : World) :
  b64decode s = b64decode t -> base64_to_image s w = base64_to_image t w.
Proof.
  intros H. unfold base64_to_image, try_except, bind, lift. rewrite H. reflexivity.
Qed.

Lemma has_non_ascii_all_chars (s : string) :
  has_non_ascii s -> all_chars is_ascii s = false.
Proof.
  intros (c & Hin & Hc). induction s as [| d s IH]; [destruct Hin |].
  cbn [all_chars]. cbn [list_ascii_of_string] in Hin. destruct Hin as [-> | Hin].
  - rewrite Hc. reflexivity.
  - rewrite (IH Hin). apply andb_false_r.
Qed.


(** ** The base64 endpoint *)

(** What the [except] clauses raise: 400 for a [ValueError], 500 for any
    other exception, after one error record. *)
Lemma remove_background_base64_except_run (e : exn) (w : World) :
  remove_background_base64_except e w =
  (inl (if isinstance_ValueError e
        then HTTPException 400 (str_exn e)
        else HTTPException 500 ("Erreur lors du traitement de l'image : " ++ str_exn e)),
   logged ERROR w).
Proof.
  unfold remove_background_base64_except. destruct (isinstance_ValueError e); reflexivity.
Qed.

(** The endpoint, step by step: decode, invoke, encode, respond, with every
    exception of the body handed to the [except] clauses. *)
Lemma remove_background_base64_run (request : ImageProcessRequest) (w : World) :
  remove_background_base64 request w =
  match base64_to_image (image_base64 request) (logged INFO w) with
  | (inl e, w1) => remove_background_base64_except e w1
  | (inr input_image, w1) =>
      match remove_background input_image (post_process request) w1 with
      | (inl e, w2) => remove_background_base64_except e w2
      | (inr (output_image, elapsed), w2) =>
          match output_format request with
          | URL =>
              remove_background_base64_except
                (HTTPException 501
                   "Le format 'url' n'est pas encore implémenté. Utilisez 'base64' ou 'binary'.")
                w2
          | _ =>
              match image_to_base64 output_image "PNG" with
              | inl e => remove_background_base64_except e w2
              | inr data =>
                  (inr {| success := true;
                          response_output_format := output_format request;
                          image_data := Some data;
                          processing_time := round elapsed 3;
                          original_size := size input_image;
                          message := Some "Image traitée avec succès" |}, w2)
              end
          end
      end
  end.
Proof.
  unfold remove_background_base64, remove_background_base64_body, try_except, bind.
  change (logger INFO w) with (@inr exn unit tt, logged INFO w). cbv iota beta.
  destruct (base64_to_image (image_base64 request) (logged INFO w)) as [[e | input_image] w1];
    [reflexivity |].
  destruct (remove_background input_image (post_process request) w1)
    as [[e | [output_image elapsed]] w2]; [reflexivity |].
  destruct (output_format request); cbn [OutputFormat_eqb]; unfold lift, raise, ret;
    try reflexivity;
    destruct (image_to_base64 output_image "PNG"); reflexivity.
Qed.

(** The invoker raises [ValueError] or [Exception], never anything else. *)
Lemma remove_background_raises (input_image : Image) (post_process : bool)
    (w w' : World) (e : exn) :
  remove_background input_image post_process w = (inl e, w') ->
  exists msg, e = PyErr ValueError msg \/ e = PyErr Exception msg.
Proof.
  destruct (validate_image_shape input_image) as [H | [msg H]].
  - rewrite (remove_background_valid _ _ _ H). cbv zeta.
    match goal with |- context [remove ?i ?k] => destruct (remove i k) end;
      intros E; inversion E; eauto.
  - rewrite (remove_background_invalid _ _ _ _ H). intros E. inversion E. eauto.
Qed.

(** C6 (the code departs from it). A request for the [url] output never gets
    the 501 status the body raises: the [except Exception] clause catches the
    [HTTPException] and answers 500, as for a failure of the model; a request
    whose image does not decode or validate gets 400. *)
Theorem url_output_status (base64_string : string) (post : bool) (w : World) :
  exists status detail w',
    remove_background_base64
      {| image_base64 := base64_string; output_format := URL; post_process := post |} w =
    (inl (HTTPException status detail), w') /\
    (status = 400%Z \/ status = 500%Z) /\
    (forall input_image output_image elapsed w2,
        base64_to_image base64_string (logged INFO w) = (inr input_image, logged INFO w) ->
        remove_background input_image post (logged INFO w) = (inr (output_image, elapsed), w2) ->
        status = 500%Z /\
        detail = "Erreur lors du traitement de l'image : 501: Le format 'url' n'est pas encore implémenté. Utilisez 'base64' ou 'binary'.").
Proof.
  rewrite remove_background_base64_run. cbn [image_base64 output_format post_process].
  destruct (base64_to_image_cases base64_string (logged INFO w)) as [[input_image H] | [msg H]];
    rewrite H.
  - destruct (remove_background input_image post (logged INFO w))
      as [[e | [output_image elapsed]] w2] eqn:Hr.
    + rewrite remove_background_base64_except_run.
      destruct (remove_background_raises _ _ _ _ _ Hr) as [msg [-> | ->]];
        cbn [isinstance_ValueError]; do 3 eexists;
        (split; [reflexivity |]); (split; [auto |]);
        intros i o t w3 Hi Ho; injection Hi as <-;
        rewrite Hr in Ho; discriminate.
    + rewrite remove_background_base64_except_run. cbn [isinstance_ValueError].
      do 3 eexists. split; [reflexivity |]. split; [auto |].
      intros. split; reflexivity.
  - rewrite remove_background_base64_except_run. cbn [isinstance_ValueError].
    do 3 eexists. split; [reflexivity |]. split; [auto |].
    intros i o t w3 Hi Ho. discriminate.
Qed.

(** C7, as amended. A request that succeeds asked for the [base64] or the
    [binary] output, and for either tag [image_data] is the base64 text of
    the PNG encoding of the model's output; the response echoes the tag and
    carries the size of the input image and the time spent around the call of
    the model, rounded to 3 decimals. *)
Theorem remove_background_base64_success (request : ImageProcessRequest)
    (w w' : World) (response : ImageProcessResponse) :
  remove_background_base64 request w = (inr response, w') ->
  exists input_image output_image image_bytes,
    base64_to_image (image_base64 request) (logged INFO w) =
      (inr input_image, logged INFO w) /\
    remove input_image (if post_process request then alpha_matting_kwargs else no_kwargs) =
      inr output_image /\
    Image_save output_image "PNG" = inr image_bytes /\
    (output_format request = BASE64 \/ output_format request = BINARY) /\
    image_data response = Some (b64encode image_bytes) /\
    response_output_format response = output_format request /\
    original_size response = size input_image /\
    processing_time response =
      round (float_sub (clock (S (ticks w))) (clock (ticks w))) 3 /\
    success response = true.
Proof.
  rewrite remove_background_base64_run.
  destruct (base64_to_image_cases (image_base64 request) (logged INFO w))
    as [[input_image H] | [msg H]]; rewrite H;
    [| rewrite remove_background_base64_except_run; discriminate].
  destruct (validate_image_shape input_image) as [Hv | [msg Hv]].
  2:{ rewrite (remove_background_invalid _ _ _ _ Hv), remove_background_base64_except_run.
      discriminate. }
  rewrite (remove_background_valid _ _ _ Hv). cbv zeta.
  destruct (remove input_image (if post_process request then alpha_matting_kwargs else no_kwargs))
    as [e | output_image] eqn:Hm;
    [rewrite remove_background_base64_except_run; discriminate |].
  unfold image_to_base64.
  destruct (output_format request) eqn:Hfmt;
    try (rewrite remove_background_base64_except_run; discriminate);
    (destruct (Image_save output_image "PNG") as [e | image_bytes] eqn:Hs;
     [rewrite remove_background_base64_except_run; discriminate |]);
    intros E; injection E as <- _;
    exists input_image, output_image, image_bytes; cbn;
    repeat split; auto.
Qed.

(** C4, as amended. Text with a character above ASCII is refused
    everywhere: [base64_to_image] raises [ValueError] around the decoder's
    message, the request validator raises [ValueError], and the endpoint
    answers 400 without reading the clock or calling the model. An ASCII
    character outside the base64 alphabet is dropped by the decoder instead,
    wherever it stands, and the text is handled as if it were not there. *)
Theorem base64_to_image_alphabet (w : World) :
  (forall base64_string,
      has_non_ascii base64_string ->
      base64_to_image base64_string w =
        (inl (PyErr ValueError
                "Impossible de convertir le base64 en image : string argument should contain only ASCII characters"),
         logged ERROR w) /\
      validate_base64 base64_string = inl (PyErr ValueError "Le base64 fourni est invalide") /\
      forall fmt post,
      exists detail w',
        remove_background_base64
          {| image_base64 := base64_string; output_format := fmt; post_process := post |} w =
          (inl (HTTPException 400 detail), w') /\
        model_calls w' = model_calls w /\
        ticks w' = ticks w) /\
  (forall before c after,
      is_ascii c = true ->
      in_base64_alphabet c = false ->
      base64_to_image (before ++ String c after) w = base64_to_image (before ++ after) w).
Proof.
  split.
  - intros base64_string Hs.
    pose proof (b64decode_non_ascii _ (has_non_ascii_all_chars _ Hs)) as Hd.
    split; [| split].
    + rewrite (base64_to_image_decode_failure _ _ _ Hd). reflexivity.
    + unfold validate_base64. rewrite Hd. reflexivity.
    + intros fmt post. rewrite remove_background_base64_run.
      cbn [image_base64].
      rewrite (base64_to_image_decode_failure _ _ _ Hd), remove_background_base64_except_run.
      cbn [isinstance_ValueError]. do 2 eexists. repeat split.
  - intros before c after Ha Hc.
    apply base64_to_image_ext, b64decode_discards; assumption.
Qed.

(** ** More on the validator *)

(** What an accepted image looks like. *)
Lemma validate_image_true_inv (image : Image) :
  fst (validate_image image) = true ->
  supported_or_absent image /\
  (fst (size image) * snd (size image) <= 16777216)%Z /\
  (10 <= fst (size image))%Z /\ (10 <= snd (size image))%Z.
Proof.
  unfold validate_image, supported_or_absent.
  destruct (format image) as [f |].
  - destruct (in_set f SUPPORTED_FORMATS) eqn:E; cbn [negb fst]; [| discriminate].
    apply in_set_true_In in E.
    destruct (size image) as [width height]. cbn [fst snd].
    destruct (Z.gtb_spec (width * height) MAX_IMAGE_SIZE) as [| Hle]; [discriminate |].
    destruct (Z.ltb_spec width 10); [discriminate |].
    destruct (Z.ltb_spec height 10); [discriminate |].
    unfold MAX_IMAGE_SIZE in Hle. intros _. repeat split; (assumption || lia).
  - destruct (size image) as [width height]. cbn [fst snd].
    destruct (Z.gtb_spec (width * height) MAX_IMAGE_SIZE) as [| Hle]; [discriminate |].
    destruct (Z.ltb_spec width 10); [discriminate |].
    destruct (Z.ltb_spec height 10); [discriminate |].
    unfold MAX_IMAGE_SIZE in Hle. intros _. repeat split; (exact I || lia).
Qed.

Lemma prefix_nil (s : string) : String.prefix "" s = true.
Proof. destruct s; reflexivity. Qed.

(** X1. The validator accepts exactly the images of the data model: format
    tag absent or supported, area at most 16,777,216 pixels, both sides at
    least 10 pixels. *)
Theorem validate_image_accepts_exactly (image : Image) :
  validate_image image = (true, None) <->
  supported_or_absent image /\
  (fst (size image) * snd (size image) <= 16777216)%Z /\
  (10 <= fst (size image))%Z /\ (10 <= snd (size image))%Z.
Proof.
  split.
  - intros H. apply validate_image_true_inv. rewrite H. reflexivity.
  - intros (Hf & Harea & Hw & Hh).
    rewrite (validate_image_sizes image _ _ Hf (surjective_pairing (size image))).
    destruct (Z.gtb_spec (fst (size image) * snd (size image)) MAX_IMAGE_SIZE) as [Hgt | _];
      [unfold MAX_IMAGE_SIZE in Hgt; lia |].
    destruct (Z.ltb_spec (fst (size image)) 10); [lia |].
    destruct (Z.ltb_spec (snd (size image)) 10); [lia | reflexivity].
Qed.

(** X2. The reason of a refusal follows the order of the checks: the format
    reason exactly when the tag is unsupported, the too-large reason exactly
    when the tag passes and the area exceeds the limit, the too-small reason
    exactly when tag and area pass and a side is below 10. *)
Theorem validate_image_reason (image : Image) (msg : string) :
  validate_image image = (false, Some msg) ->
  (is_format_reason msg = true <-> ~ supported_or_absent image) /\
  (is_too_large_reason msg = true <->
   supported_or_absent image /\ (fst (size image) * snd (size image) > 16777216)%Z) /\
  (is_too_small_reason msg = true <->
   supported_or_absent image /\ (fst (size image) * snd (size image) <= 16777216)%Z /\
   ((fst (size image) < 10)%Z \/ (snd (size image) < 10)%Z)).
Proof using Type.
  clear Image_open Image_load Image_save remove str_UnicodeEncodeError.
  unfold validate_image, supported_or_absent.
  destruct (format image) as [f |].
  - destruct (in_set f SUPPORTED_FORMATS) eqn:E; cbn [negb].
    + apply in_set_true_In in E.
      destruct (size image) as [width height]. cbn [fst snd].
      destruct (Z.gtb_spec (width * height) MAX_IMAGE_SIZE) as [Hgt | Hle];
        unfold MAX_IMAGE_SIZE in *.
      * intros H. injection H as <-.
        repeat split; intros; cbn in *; first [reflexivity | discriminate | tauto | lia | apply prefix_nil].
      * destruct (Z.ltb_spec width 10) as [Hw | Hw]; cbn [orb].
        { intros H. injection H as <-.
          repeat split; intros; cbn in *; first [reflexivity | discriminate | tauto | lia | apply prefix_nil]. }
        destruct (Z.ltb_spec height 10) as [Hh | Hh]; [| discriminate].
        intros H. injection H as <-.
        repeat split; intros; cbn in *; first [reflexivity | discriminate | tauto | lia | apply prefix_nil].
    + assert (Hn : ~ In f SUPPORTED_FORMATS).
      { intros Hin. apply in_set_In in Hin. congruence. }
      intros H. injection H as <-.
      repeat split; intros; cbn in *; first [reflexivity | discriminate | tauto | lia | apply prefix_nil].
  - destruct (size image) as [width height]. cbn [fst snd].
    destruct (Z.gtb_spec (width * height) MAX_IMAGE_SIZE) as [Hgt | Hle];
      unfold MAX_IMAGE_SIZE in *.
    + intros H. injection H as <-.
      repeat split; intros; cbn in *; first [reflexivity | discriminate | tauto | lia | apply prefix_nil].
    + destruct (Z.ltb_spec width 10) as [Hw | Hw]; cbn [orb].
      { intros H. injection H as <-.
        repeat split; intros; cbn in *; first [reflexivity | discriminate | tauto | lia | apply prefix_nil]. }
      destruct (Z.ltb_spec height 10) as [Hh | Hh]; [| discriminate].
      intros H. injection H as <-.
      repeat split; intros; cbn in *; first [reflexivity | discriminate | tauto | lia | apply prefix_nil].
Qed.

(** X3. Each side of an accepted image lies between 10 and 1,677,721
    pixels: the area limit bounds the long side, because the short side is
    at least 10. *)
Theorem validate_image_side_bounds (image : Image) :
  fst (validate_image image) = true ->
  (10 <= fst (size image) <= 1677721)%Z /\ (10 <= snd (size image) <= 1677721)%Z.
Proof.
  intros H. apply validate_image_true_inv in H.
  destruct H as (_ & Harea & Hw & Hh). split; split; try assumption; nia.
Qed.

(** ** More on the invoker *)

(** X4. When the model raises on a valid image, whatever the class of its
    exception, the invoker raises a plain [Exception] whose message is the
    fixed prefix followed by the model's message. The model was called once,
    the clock read once, and what is raised is no [ValueError]. *)
Theorem remove_background_model_failure (input_image : Image) (post : bool)
    (e : exn) (w : World) :
  fst (validate_image input_image) = true ->
  remove input_image (if post then alpha_matting_kwargs else no_kwargs) = inl e ->
  remove_background input_image post w =
    (inl (PyErr Exception ("Échec du traitement d'image : " ++ str_exn e)),
     {| ticks := S (ticks w);
        model_calls := model_calls w ++
          [{| call_image := input_image;
              call_kwargs := if post then alpha_matting_kwargs else no_kwargs |}];
        log := log w ++ [INFO; ERROR] |}) /\
  isinstance_ValueError
    (PyErr Exception ("Échec du traitement d'image : " ++ str_exn e)) = false.
Proof.
  intros Hvalid Hmodel.
  destruct (validate_image_shape input_image) as [H | [msg H]];
    [| rewrite H in Hvalid; discriminate].
  rewrite (remove_background_valid _ post w H). cbv zeta. rewrite Hmodel.
  unfold logged, model_called. cbn [ticks model_calls log].
  rewrite <- app_assoc. split; reflexivity.
Qed.

(** X5. When the model returns on a valid image, the invoker returns the
    model's image and, as the elapsed time, the second of its two clock
    readings minus the first; on this path it reads the clock exactly twice,
    calls the model exactly once, with the keyword arguments [post_process]
    selects, and logs two info records. *)
Theorem remove_background_success (input_image output_image : Image) (post : bool)
    (w : World) :
  fst (validate_image input_image) = true ->
  remove input_image (if post then alpha_matting_kwargs else no_kwargs) = inr output_image ->
  remove_background input_image post w =
    (inr (output_image, float_sub (clock (S (ticks w))) (clock (ticks w))),
     {| ticks := S (S (ticks w));
        model_calls := model_calls w ++
          [{| call_image := input_image;
              call_kwargs := if post then alpha_matting_kwargs else no_kwargs |}];
        log := log w ++ [INFO; INFO] |}).
Proof.
  intros Hvalid Hmodel.
  destruct (validate_image_shape input_image) as [H | [msg H]];
    [| rewrite H in Hvalid; discriminate].
  rewrite (remove_background_valid _ post w H). cbv zeta. rewrite Hmodel.
  unfold model_called. cbn [ticks model_calls log].
  rewrite <- app_assoc. reflexivity.
Qed.

(** ** More on the encoding helpers *)

(** X6. Whatever fails inside [base64_to_image] -- the base64 decoder,
    [Image.open] or [image.load()] -- comes out as a [ValueError] whose
    message is the fixed prefix followed by the message of the cause, after
    one error record and nothing else. *)
Theorem base64_to_image_failure (base64_string : string) (e : exn) (w w' : World) :
  base64_to_image base64_string w = (inl e, w') ->
  w' = logged ERROR w /\
  exists cause,
    e = PyErr ValueError ("Impossible de convertir le base64 en image : " ++ str_exn cause) /\
    (b64decode base64_string = inl cause \/
     exists image_bytes,
       b64decode base64_string = inr image_bytes /\
       (Image_open image_bytes = inl cause \/
        exists image, Image_open image_bytes = inr image /\ Image_load image = inl cause)).
Proof.
  unfold base64_to_image, try_except, bind, lift, ret, raise, logger, logged.
  destruct (b64decode base64_string) as [c | image_bytes].
  - intros H. injection H as <- <-. split; [reflexivity |]. exists c. auto.
  - destruct (Image_open image_bytes) as [c | image] eqn:Ho.
    + intros H. injection H as <- <-. split; [reflexivity |]. exists c.
      split; [reflexivity |]. right. exists image_bytes. auto.
    + destruct (Image_load image) as [c | []] eqn:Hl; [| discriminate].
      intros H. injection H as <- <-. split; [reflexivity |]. exists c.
      split; [reflexivity |]. right. exists image_bytes. split; [reflexivity |].
      right. exists image. auto.
Qed.

Lemma is_digit_in_alphabet (c : ascii) :
  is_base64_digit c = true -> in_base64_alphabet c = true.
Proof.
  unfold is_base64_digit, in_base64_alphabet. destruct (binascii.a2b c); [reflexivity | discriminate].
Qed.

Lemma b2a_in_alphabet (v : N) : (v < 64)%N -> in_base64_alphabet (binascii.b2a v) = true.
Proof.
  intros H. unfold in_base64_alphabet. rewrite (a2b_b2a v H). reflexivity.
Qed.

(** The encoder writes four characters of the alphabet for every group of
    up to three bytes. *)
Lemma b2a_base64_shape (data : bytes) :
  all_chars in_base64_alphabet (binascii.b2a_base64 data) = true /\
  String.length (binascii.b2a_base64 data) = (4 * ((List.length data + 2) / 3))%nat.
Proof.
  induction data as [| x | x y | x y z rest [IHa IHl]] using list_ind3.
  - split; reflexivity.
  - destruct (sextets_bounded x x) as (B1 & _ & _ & _ & B5 & _).
    cbn [binascii.b2a_base64 all_chars].
    rewrite (b2a_in_alphabet _ B1), (b2a_in_alphabet _ B5). split; reflexivity.
  - destruct (sextets_bounded x y) as (B1 & B2 & _).
    destruct (sextets_bounded y y) as (_ & _ & _ & _ & _ & B6).
    cbn [binascii.b2a_base64 all_chars].
    rewrite (b2a_in_alphabet _ B1), (b2a_in_alphabet _ B2), (b2a_in_alphabet _ B6).
    split; reflexivity.
  - destruct (sextets_bounded x y) as (B1 & B2 & _).
    destruct (sextets_bounded y z) as (_ & _ & B3 & _).
    destruct (sextets_bounded z z) as (_ & _ & _ & B4 & _).
    cbn [binascii.b2a_base64 all_chars String.length List.length].
    rewrite (b2a_in_alphabet _ B1), (b2a_in_alphabet _ B2),
      (b2a_in_alphabet _ B3), (b2a_in_alphabet _ B4), IHa, IHl.
    split; [reflexivity |].
    replace (S (S (S (List.length rest))) + 2)%nat with (List.length rest + 2 + 1 * 3)%nat by lia.
    rewrite Nat.div_add by lia. lia.
Qed.

(** X7. The text [image_to_base64] returns is the base64 form of the bytes
    [image_to_bytes] returns for the same image and format: it decodes to
    exactly those bytes, holds only characters of the base64 alphabet and
    has four characters for every group of up to three bytes. *)
Theorem image_to_base64_text (image : Image) (fmt text : string) :
  image_to_base64 image fmt = inr text ->
  exists image_bytes,
    image_to_bytes image fmt = inr image_bytes /\
    b64decode text = inr image_bytes /\
    all_chars in_base64_alphabet text = true /\
    String.length text = (4 * ((List.length image_bytes + 2) / 3))%nat.
Proof.
  unfold image_to_base64, image_to_bytes.
  destruct (Image_save image fmt) as [e | image_bytes]; [discriminate |].
  intros H. injection H as <-. exists image_bytes.
  split; [reflexivity |]. split; [apply b64decode_b64encode |].
  apply b2a_base64_shape.
Qed.

(** ** More on the request validator *)

(** X8. The request validator accepts every text [image_to_base64]
    produces, and hands it back unchanged. *)
Theorem validate_base64_accepts_encoded (image : Image) (fmt text : string) :
  image_to_base64 image fmt = inr text ->
  validate_base64 text = inr text.
Proof.
  unfold image_to_base64.
  destruct (Image_save image fmt) as [e | image_bytes]; [discriminate |].
  intros H. injection H as <-.
  unfold validate_base64. rewrite b64decode_b64encode. reflexivity.
Qed.

Lemma forall_ascii (P : ascii -> bool) :
  forallb (fun n => P (ascii_of_N n)) byte_values = true -> forall c : ascii, P c = true.
Proof.
  intros H c. rewrite forallb_forall in H.
  rewrite <- (ascii_N_embedding c). apply H, in_byte_values, N_ascii_bounded.
Qed.

(** The digits of base64 are ASCII, and none of them is the pad. *)
Lemma digit_plain (c : ascii) :
  is_base64_digit c = true ->
  is_ascii c = true /\ Ascii.eqb c binascii.BASE64_PAD = false.
Proof.
  pose proof (forall_ascii
    (fun c => implb (is_base64_digit c)
                (is_ascii c && negb (Ascii.eqb c binascii.BASE64_PAD)))
    ltac:(vm_compute; reflexivity) c) as H.
  cbv beta in H. intros Hd. rewrite Hd in H. cbn [implb] in H.
  apply andb_true_iff in H. destruct H as [Ha Hp].
  apply negb_true_iff in Hp. auto.
Qed.

(** With no digit in the text the decoder never leaves its initial state. *)
Lemma a2b_loop_no_digit (s : string) :
  all_chars (fun c => negb (is_base64_digit c)) s = true ->
  forall leftchar pads bin_data,
    binascii.a2b_loop s 0 leftchar pads bin_data = inr (rev bin_data).
Proof.
  induction s as [| c s IH]; intros Hs leftchar pads bin_data; [reflexivity |].
  cbn [all_chars] in Hs. apply andb_true_iff in Hs. destruct Hs as [Hc Hs].
  apply negb_true_iff in Hc. unfold is_base64_digit in Hc.
  cbn [binascii.a2b_loop].
  destruct (Ascii.eqb c binascii.BASE64_PAD).
  - cbn [Nat.leb andb]. apply IH, Hs.
  - destruct (binascii.a2b c); [discriminate | apply IH, Hs].
Qed.

Lemma all_chars_and (p q : ascii -> bool) (s : string) :
  all_chars (fun c => p c && q c) s = all_chars p s && all_chars q s.
Proof.
  induction s as [| c s IH]; [reflexivity |]. cbn [all_chars]. rewrite IH.
  destruct (p c), (q c), (all_chars p s); reflexivity.
Qed.

(** X9. ASCII text without a single base64 digit -- the empty text, blanks,
    punctuation, stray pads -- passes the request validator: the lenient
    decoder makes the empty byte string of it, and [base64_to_image] treats
    it as the empty text. *)
Theorem validate_base64_accepts_digitless (v : string) (w : World) :
  all_chars (fun c => is_ascii c && negb (is_base64_digit c)) v = true ->
  validate_base64 v = inr v /\
  b64decode v = inr [] /\
  base64_to_image v w = base64_to_image "" w.
Proof.
  intros H. rewrite all_chars_and in H. apply andb_true_iff in H. destruct H as [Ha Hd].
  assert (Hdec : b64decode v = inr []).
  { unfold b64decode, binascii.a2b_base64. rewrite Ha.
    apply (a2b_loop_no_digit v Hd 0%N 0%nat []). }
  split; [unfold validate_base64; rewrite Hdec; reflexivity |].
  split; [exact Hdec |].
  apply base64_to_image_ext. rewrite Hdec. reflexivity.
Qed.

(** On digits alone the decoder ends in the quad position the number of
    digits gives. *)
Lemma a2b_loop_digits (s : string) :
  all_chars is_base64_digit s = true ->
  forall quad_pos leftchar pads bin_data,
    (quad_pos < 4)%nat ->
    exists bin_data',
      binascii.a2b_loop s quad_pos leftchar pads bin_data =
      binascii.a2b_finish ((quad_pos + String.length s) mod 4) bin_data'.
Proof.
  induction s as [| c s IH]; intros Hs quad_pos leftchar pads bin_data Hq.
  - exists bin_data. cbn [binascii.a2b_loop String.length].
    rewrite Nat.add_0_r, Nat.mod_small by assumption. reflexivity.
  - cbn [all_chars] in Hs. apply andb_true_iff in Hs. destruct Hs as [Hc Hs].
    destruct (digit_plain c Hc) as [_ Hp].
    unfold is_base64_digit in Hc.
    cbn [binascii.a2b_loop String.length]. rewrite Hp.
    destruct (binascii.a2b c) as [v |]; [| discriminate].
    destruct quad_pos as [| [| [| [| q]]]]; [| | | | lia].
    + destruct (IH Hs 1%nat v 0%nat bin_data ltac:(lia)) as [b Hb].
      exists b. rewrite Hb. f_equal.
    + destruct (IH Hs 2%nat (N.land v 15) 0%nat
                  (binascii.store (N.lor (N.shiftl leftchar 2) (N.shiftr v 4)) :: bin_data)
                  ltac:(lia)) as [b Hb].
      exists b. rewrite Hb. f_equal.
    + destruct (IH Hs 3%nat (N.land v 3) 0%nat
                  (binascii.store (N.lor (N.shiftl leftchar 4) (N.shiftr v 2)) :: bin_data)
                  ltac:(lia)) as [b Hb].
      exists b. rewrite Hb. f_equal.
    + destruct (IH Hs 0%nat 0%N 0%nat
                  (binascii.store (N.lor (N.shiftl leftchar 6) v) :: bin_data)
                  ltac:(lia)) as [b Hb].
      exists b. rewrite Hb. f_equal.
      replace (3 + S (String.length s))%nat with (String.length s + 1 * 4)%nat by lia.
      rewrite Nat.Div0.mod_add. reflexivity.
Qed.

Lemma all_digits_ascii (s : string) :
  all_chars is_base64_digit s = true -> all_chars is_ascii s = true.
Proof.
  induction s as [| c s IH]; [reflexivity |]. cbn [all_chars].
  intros H. apply andb_true_iff in H. destruct H as [Hc Hs].
  rewrite (proj1 (digit_plain c Hc)), (IH Hs). reflexivity.
Qed.

(** X10. Text made of base64 digits alone, with no pad, passes the request
    validator exactly when its length is a multiple of 4: text that lacks
    its padding is refused, with the fixed message. *)
Theorem validate_base64_unpadded (v : string) :
  all_chars is_base64_digit v = true ->
  (validate_base64 v = inr v <-> (String.length v mod 4 = 0)%nat) /\
  ((String.length v mod 4 <> 0)%nat ->
   validate_base64 v = inl (PyErr ValueError "Le base64 fourni est invalide")).
Proof.
  intros Hd.
  destruct (a2b_loop_digits v Hd 0%nat 0%N 0%nat [] ltac:(lia)) as [b Hb].
  cbn [Nat.add] in Hb.
  assert (Hdec : b64decode v = binascii.a2b_finish (String.length v mod 4) b).
  { unfold b64decode, binascii.a2b_base64. rewrite (all_digits_ascii v Hd). exact Hb. }
  unfold validate_base64. rewrite Hdec.
  destruct (String.length v mod 4)%nat as [| [| q]]; cbn [binascii.a2b_finish].
  - split; [split; reflexivity | intros H; contradiction H; reflexivity].
  - split; [split; intros H; discriminate | reflexivity].
  - split; [split; intros H; discriminate | reflexivity].
Qed.

(** X11. For text the request validator has accepted, the base64 step of
    [base64_to_image] cannot fail: the outcome is decided by PIL alone, on
    the bytes the text decodes to. *)
Theorem base64_to_image_after_validation (v v' : string) (w : World) :
  validate_base64 v = inr v' ->
  v' = v /\
  exists image_bytes,
    b64decode v = inr image_bytes /\
    base64_to_image v w =
    match Image_open image_bytes with
    | inl e =>
        (inl (PyErr ValueError ("Impossible de convertir le base64 en image : " ++ str_exn e)),
         logged ERROR w)
    | inr image =>
        match Image_load image with
        | inl e =>
            (inl (PyErr ValueError
                    ("Impossible de convertir le base64 en image : " ++ str_exn e)),
             logged ERROR w)
        | inr _ => (inr image, w)
        end
    end.
Proof.
  unfold validate_base64.
  destruct (b64decode v) as [e | image_bytes] eqn:Hd; [discriminate |].
  intros H. injection H as <-. split; [reflexivity |].
  exists image_bytes. split; [reflexivity |].
  unfold base64_to_image, try_except, bind, lift, ret, raise, logger, logged. rewrite Hd.
  destruct (Image_open image_bytes) as [e | image]; [reflexivity |].
  destruct (Image_load image) as [e | []]; reflexivity.
Qed.

(** ** More on the base64 endpoint *)

(** X12. The base64 endpoint ends in a response or in an [HTTPException]
    of status 400 or 500: no other exception leaves it, and no other
    status. *)
Theorem remove_background_base64_outcome (request : ImageProcessRequest) (w : World) :
  (exists response, fst (remove_background_base64 request w) = inr response) \/
  client_or_server_error (fst (remove_background_base64 request w)).
Proof.
  assert (Hexc : forall e w1,
             client_or_server_error (fst (remove_background_base64_except e w1))).
  { intros e w1. rewrite remove_background_base64_except_run. cbn [fst].
    destruct (isinstance_ValueError e); do 2 eexists; split; [reflexivity | auto | reflexivity | auto]. }
  rewrite remove_background_base64_run.
  destruct (base64_to_image (image_base64 request) (logged INFO w)) as [[e | input_image] w1];
    [right; apply Hexc |].
  destruct (remove_background input_image (post_process request) w1)
    as [[e | [output_image elapsed]] w2]; [right; apply Hexc |].
  destruct (output_format request); try (right; apply Hexc);
    (destruct (image_to_base64 output_image "PNG"); [right; apply Hexc | left; eexists; reflexivity]).
Qed.

(** X13. When the text decodes to an image the validator refuses, the
    base64 endpoint answers 400 with exactly the validator's message as its
    detail; the model is not called and the clock is not read. *)
Theorem remove_background_base64_invalid_image (request : ImageProcessRequest)
    (input_image : Image) (msg : string) (w : World) :
  base64_to_image (image_base64 request) (logged INFO w) = (inr input_image, logged INFO w) ->
  validate_image input_image = (false, Some msg) ->
  remove_background_base64 request w =
    (inl (HTTPException 400 msg),
     {| ticks := ticks w; model_calls := model_calls w;
        log := log w ++ [INFO; ERROR; ERROR] |}).
Proof.
  intros Hd Hv. rewrite remove_background_base64_run, Hd.
  rewrite (remove_background_invalid _ _ _ _ Hv), remove_background_base64_except_run.
  cbn [isinstance_ValueError str_exn]. unfold logged. cbn [ticks model_calls log].
  rewrite <- !app_assoc. reflexivity.
Qed.

(** X14. When the model raises, the base64 endpoint answers 500, even if
    what the model raised was a [ValueError]; the detail nests the endpoint's
    prefix, the invoker's prefix and the model's message. *)
Theorem remove_background_base64_model_failure (request : ImageProcessRequest)
    (input_image : Image) (e : exn) (w : World) :
  base64_to_image (image_base64 request) (logged INFO w) = (inr input_image, logged INFO w) ->
  fst (validate_image input_image) = true ->
  remove input_image (if post_process request then alpha_matting_kwargs else no_kwargs) = inl e ->
  fst (remove_background_base64 request w) =
    inl (HTTPException 500
           ("Erreur lors du traitement de l'image : Échec du traitement d'image : "
            ++ str_exn e)).
Proof.
  intros Hd Hvalid Hm. rewrite remove_background_base64_run, Hd.
  destruct (validate_image_shape input_image) as [H | [msg H]];
    [| rewrite H in Hvalid; discriminate].
  rewrite (remove_background_valid _ _ _ H). cbv zeta. rewrite Hm.
  rewrite remove_background_base64_except_run. reflexivity.
Qed.

(** X15. When the text decodes to a valid image, the base64 endpoint calls
    the model exactly once, with the keyword arguments [post_process]
    selects, whatever output is requested -- also for [url], whose refusal
    comes only after the model has run -- and whether or not the model and
    the encoder succeed. *)
Theorem remove_background_base64_calls_model (request : ImageProcessRequest)
    (input_image : Image) (w : World) :
  base64_to_image (image_base64 request) (logged INFO w) = (inr input_image, logged INFO w) ->
  fst (validate_image input_image) = true ->
  model_calls (snd (remove_background_base64 request w)) =
  (model_calls w ++
   [{| call_image := input_image;
       call_kwargs := if post_process request then alpha_matting_kwargs else no_kwargs |}])%list.
Proof.
  intros Hd Hvalid. rewrite remove_background_base64_run, Hd.
  destruct (validate_image_shape input_image) as [H | [msg H]];
    [| rewrite H in Hvalid; discriminate].
  rewrite (remove_background_valid _ _ _ H). cbv zeta.
  destruct (remove input_image (if post_process request then alpha_matting_kwargs else no_kwargs))
    as [e | output_image];
    [rewrite remove_background_base64_except_run; reflexivity |].
  destruct (output_format request);
    try (rewrite remove_background_base64_except_run; reflexivity);
    (destruct (image_to_base64 output_image "PNG");
     [rewrite remove_background_base64_except_run; reflexivity | reflexivity]).
Qed.

(** ** The file endpoint *)

Lemma remove_background_file_except_run (e : exn) (w : World) :
  remove_background_file_except e w =
  (inl (if isinstance_ValueError e
        then HTTPException 400 (str_exn e)
        else HTTPException 500 ("Erreur lors du traitement du fichier : " ++ str_exn e)),
   logged ERROR w).
Proof.
  unfold remove_background_file_except. destruct (isinstance_ValueError e); reflexivity.
Qed.

(** The headers the file endpoint gives are encodable exactly when the
    file name and the printed time are. *)
Lemma Response_init_file (output_bytes : bytes) (name time : string) :
  Response_init output_bytes "image/png"
    [("Content-Disposition", "attachment; filename=nobg_" ++ name);
     ("X-Processing-Time", time)] =
  if latin1_encodable name
  then if latin1_encodable time
       then inr {| content := output_bytes;
                   media_type := "image/png";
                   headers := [("Content-Disposition", "attachment; filename=nobg_" ++ name);
                               ("X-Processing-Time", time)] |}
       else inl (PyErr UnicodeEncodeError (str_UnicodeEncodeError time))
  else inl (PyErr UnicodeEncodeError
              (str_UnicodeEncodeError ("attachment; filename=nobg_" ++ name))).
Proof.
  unfold Response_init, init_headers, encode_latin1.
  change (latin1_encodable "Content-Disposition") with true.
  change (latin1_encodable "X-Processing-Time") with true.
  change (latin1_encodable "image/png") with true. cbv iota.
  assert (H : latin1_encodable ("attachment; filename=nobg_" ++ name) = latin1_encodable name).
  { unfold latin1_encodable. rewrite all_chars_app. reflexivity. }
  rewrite H. destruct (latin1_encodable name); [| reflexivity].
  destruct (latin1_encodable time); reflexivity.
Qed.

(** The file endpoint, step by step. *)
Lemma remove_background_file_run (file : UploadFile) (post : bool) (w : World) :
  remove_background_file file post w =
  match Image_open (contents file) with
  | inl e => remove_background_file_except e (logged INFO w)
  | inr input_image =>
      match remove_background input_image post (logged INFO w) with
      | (inl e, w2) => remove_background_file_except e w2
      | (inr (output_image, elapsed), w2) =>
          match image_to_bytes output_image "PNG" with
          | inl e => remove_background_file_except e w2
          | inr output_bytes =>
              match Response_init output_bytes "image/png"
                      [("Content-Disposition",
                        "attachment; filename=nobg_" ++ str_optional (filename file));
                       ("X-Processing-Time", str_float (round elapsed 3))] with
              | inl e => remove_background_file_except e (logged INFO w2)
              | inr response => (inr response, logged INFO w2)
              end
          end
      end
  end.
Proof.
  unfold remove_background_file, remove_background_file_body, try_except, bind, lift.
  change (logger INFO w) with (@inr exn unit tt, logged INFO w). cbv iota beta.
  destruct (Image_open (contents file)) as [e | input_image]; [reflexivity |].
  destruct (remove_background input_image post (logged INFO w))
    as [[e | [output_image elapsed]] w2]; [reflexivity |].
  destruct (image_to_bytes output_image "PNG") as [e | output_bytes]; [reflexivity |].
  change (logger INFO w2) with (@inr exn unit tt, logged INFO w2). cbv iota beta.
  destruct (Response_init output_bytes "image/png" _); reflexivity.
Qed.

(** X16. A file upload that succeeds was opened by PIL to a valid image on
    which the model returned; the response body is the PNG encoding of the
    model's output, typed [image/png], and its headers carry the attachment
    name built from the file name and the time spent around the call of the
    model, rounded to 3 decimals. The model was called once. *)
Theorem remove_background_file_success (file : UploadFile) (post : bool)
    (w w' : World) (response : Response) :
  remove_background_file file post w = (inr response, w') ->
  exists input_image output_image,
    Image_open (contents file) = inr input_image /\
    validate_image input_image = (true, None) /\
    remove input_image (if post then alpha_matting_kwargs else no_kwargs) = inr output_image /\
    Image_save output_image "PNG" = inr (content response) /\
    media_type response = "image/png" /\
    headers response =
      [("Content-Disposition", "attachment; filename=nobg_" ++ str_optional (filename file));
       ("X-Processing-Time",
        str_float (round (float_sub (clock (S (ticks w))) (clock (ticks w))) 3))] /\
    model_calls w' =
      (model_calls w ++
       [{| call_image := input_image;
           call_kwargs := if post then alpha_matting_kwargs else no_kwargs |}])%list.
Proof.
  rewrite remove_background_file_run.
  destruct (Image_open (contents file)) as [e | input_image] eqn:Ho;
    [rewrite remove_background_file_except_run; discriminate |].
  destruct (validate_image_shape input_image) as [Hv | [msg Hv]].
  2:{ rewrite (remove_background_invalid _ _ _ _ Hv), remove_background_file_except_run.
      discriminate. }
  rewrite (remove_background_valid _ _ _ Hv). cbv zeta.
  destruct (remove input_image (if post then alpha_matting_kwargs else no_kwargs))
    as [e | output_image] eqn:Hm;
    [rewrite remove_background_file_except_run; discriminate |].
  unfold image_to_bytes.
  destruct (Image_save output_image "PNG") as [e | output_bytes] eqn:Hs;
    [rewrite remove_background_file_except_run; discriminate |].
  rewrite Response_init_file.
  destruct (latin1_encodable (str_optional (filename file)));
    [| rewrite remove_background_file_except_run; discriminate].
  destruct (latin1_encodable _);
    [| rewrite remove_background_file_except_run; discriminate].
  intros E. injection E as <- <-.
  exists input_image, output_image. cbn. repeat split; auto.
Qed.

(** [base64_to_image] on text whose bytes PIL refuses to open. *)
Lemma base64_to_image_open_failure (base64_string : string) (image_bytes : bytes)
    (e : exn) (w : World) :
  b64decode base64_string = inr image_bytes ->
  Image_open image_bytes = inl e ->
  base64_to_image base64_string w =
  (inl (PyErr ValueError ("Impossible de convertir le base64 en image : " ++ str_exn e)),
   logged ERROR w).
Proof.
  intros Hd Ho. unfold base64_to_image, try_except, bind, lift.
  rewrite Hd, Ho. reflexivity.
Qed.

(** X17. Bytes that PIL refuses to open with an exception that is no
    [ValueError] (its [UnidentifiedImageError] is an [OSError]) get 500 from
    the file endpoint, where [Image.open] stands bare in the [try] block,
    and 400 from the base64 endpoint, where [base64_to_image] wraps every
    failure in a [ValueError]. Neither calls the model. *)
Theorem undecodable_bytes_status (file : UploadFile) (post : bool)
    (request : ImageProcessRequest) (e : exn) (w : World) :
  Image_open (contents file) = inl e ->
  isinstance_ValueError e = false ->
  b64decode (image_base64 request) = inr (contents file) ->
  remove_background_file file post w =
    (inl (HTTPException 500 ("Erreur lors du traitement du fichier : " ++ str_exn e)),
     {| ticks := ticks w; model_calls := model_calls w; log := log w ++ [INFO; ERROR] |}) /\
  remove_background_base64 request w =
    (inl (HTTPException 400 ("Impossible de convertir le base64 en image : " ++ str_exn e)),
     {| ticks := ticks w; model_calls := model_calls w;
        log := log w ++ [INFO; ERROR; ERROR] |}).
Proof.
  intros Ho Hc Hd. split.
  - rewrite remove_background_file_run, Ho, remove_background_file_except_run, Hc.
    unfold logged. cbn [ticks model_calls log]. rewrite <- app_assoc. reflexivity.
  - rewrite remove_background_base64_run.
    rewrite (base64_to_image_open_failure _ _ _ _ Hd Ho).
    rewrite remove_background_base64_except_run.
    cbn [isinstance_ValueError str_exn]. unfold logged. cbn [ticks model_calls log].
    rewrite <- !app_assoc. reflexivity.
Qed.

(** X18. An upload that PIL opens to an image the validator refuses -- a
    5x5 picture, say -- gets 400 from the file endpoint with exactly the
    validator's message as its detail; the model is not called and the clock
    is not read. *)
Theorem remove_background_file_invalid_image (file : UploadFile) (post : bool)
    (input_image : Image) (msg : string) (w : World) :
  Image_open (contents file) = inr input_image ->
  validate_image input_image = (false, Some msg) ->
  remove_background_file file post w =
    (inl (HTTPException 400 msg),
     {| ticks := ticks w; model_calls := model_calls w;
        log := log w ++ [INFO; ERROR; ERROR] |}).
Proof.
  intros Ho Hv. rewrite remove_background_file_run, Ho.
  rewrite (remove_background_invalid _ _ _ _ Hv), remove_background_file_except_run.
  cbn [isinstance_ValueError str_exn]. unfold logged. cbn [ticks model_calls log].
  rewrite <- !app_assoc. reflexivity.
Qed.

(** X19. The file endpoint ends in a response or in an [HTTPException] of
    status 400 or 500: no other exception leaves it, and no other status. *)
Theorem remove_background_file_outcome (file : UploadFile) (post : bool) (w : World) :
  (exists response, fst (remove_background_file file post w) = inr response) \/
  client_or_server_error (fst (remove_background_file file post w)).
Proof.
  assert (Hexc : forall e w1,
             client_or_server_error (fst (remove_background_file_except e w1))).
  { intros e w1. rewrite remove_background_file_except_run. cbn [fst].
    destruct (isinstance_ValueError e); do 2 eexists; split; [reflexivity | auto | reflexivity | auto]. }
  rewrite remove_background_file_run.
  destruct (Image_open (contents file)) as [e | input_image]; [right; apply Hexc |].
  destruct (remove_background input_image post (logged INFO w))
    as [[e | [output_image elapsed]] w2]; [right; apply Hexc |].
  destruct (image_to_bytes output_image "PNG") as [e | output_bytes]; [right; apply Hexc |].
  destruct (Response_init output_bytes "image/png" _);
    [right; apply Hexc | left; eexists; reflexivity].
Qed.

(** X20. The base64 endpoint succeeds whenever the text decodes to a valid
    image, the model returns, PIL writes the result as PNG and the output
    asked for is not [url]; the response then holds the base64 text of the
    PNG bytes, the size of the input image and the rounded time. *)
Theorem remove_background_base64_succeeds (request : ImageProcessRequest)
    (input_image output_image : Image) (image_bytes : bytes) (w : World) :
  base64_to_image (image_base64 request) (logged INFO w) = (inr input_image, logged INFO w) ->
  fst (validate_image input_image) = true ->
  remove input_image (if post_process request then alpha_matting_kwargs else no_kwargs) =
    inr output_image ->
  Image_save output_image "PNG" = inr image_bytes ->
  output_format request <> URL ->
  fst (remove_background_base64 request w) =
    inr {| success := true;
           response_output_format := output_format request;
           image_data := Some (b64encode image_bytes);
           processing_time := round (float_sub (clock (S (ticks w))) (clock (ticks w))) 3;
           original_size := size input_image;
           message := Some "Image traitée avec succès" |}.
Proof.
  intros Hd Hvalid Hm Hs Hfmt. rewrite remove_background_base64_run, Hd.
  destruct (validate_image_shape input_image) as [H | [msg H]];
    [| rewrite H in Hvalid; discriminate].
  rewrite (remove_background_valid _ _ _ H). cbv zeta. rewrite Hm.
  unfold image_to_base64. rewrite Hs.
  destruct (output_format request); [reflexivity | reflexivity | contradiction Hfmt; reflexivity].
Qed.

(** X21. The file endpoint succeeds whenever PIL opens the upload to a
    valid image, the model returns, PIL writes the result as PNG, and the
    file name and the printed time hold no character above U+00FF, so that
    the headers of the response can be encoded; the body of the response is
    the PNG bytes. *)
Theorem remove_background_file_succeeds (file : UploadFile) (post : bool)
    (input_image output_image : Image) (output_bytes : bytes) (w : World) :
  Image_open (contents file) = inr input_image ->
  fst (validate_image input_image) = true ->
  remove input_image (if post then alpha_matting_kwargs else no_kwargs) = inr output_image ->
  Image_save output_image "PNG" = inr output_bytes ->
  latin1_encodable (str_optional (filename file)) = true ->
  latin1_encodable
    (str_float (round (float_sub (clock (S (ticks w))) (clock (ticks w))) 3)) = true ->
  fst (remove_background_file file post w) =
    inr {| content := output_bytes;
           media_type := "image/png";
           headers :=
             [("Content-Disposition",
               "attachment; filename=nobg_" ++ str_optional (filename file));
              ("X-Processing-Time",
               str_float (round (float_sub (clock (S (ticks w))) (clock (ticks w))) 3))] |}.
Proof.
  intros Ho Hvalid Hm Hs Hname Htime. rewrite remove_background_file_run, Ho.
  destruct (validate_image_shape input_image) as [H | [msg H]];
    [| rewrite H in Hvalid; discriminate].
  rewrite (remove_background_valid _ _ _ H). cbv zeta. rewrite Hm.
  unfold image_to_bytes. rewrite Hs, Response_init_file, Hname.
  cbn [ticks logged]. rewrite Htime. reflexivity.
Qed.

(** X23. An upload whose name holds a character above U+00FF is refused
    with 400 only after the work is done: the image was opened, validated,
    sent to the model and written as PNG, and it is the response that cannot
    be built, because its [Content-Disposition] header does not encode as
    latin-1. The [UnicodeEncodeError] is a [ValueError], so the first
    [except] clause takes it. *)
Theorem remove_background_file_unencodable_name (file : UploadFile) (post : bool)
    (input_image output_image : Image) (output_bytes : bytes) (w : World) :
  Image_open (contents file) = inr input_image ->
  fst (validate_image input_image) = true ->
  remove input_image (if post then alpha_matting_kwargs else no_kwargs) = inr output_image ->
  Image_save output_image "PNG" = inr output_bytes ->
  latin1_encodable (str_optional (filename file)) = false ->
  remove_background_file file post w =
    (inl (HTTPException 400
            (str_UnicodeEncodeError
               ("attachment; filename=nobg_" ++ str_optional (filename file)))),
     {| ticks := S (S (ticks w));
        model_calls := model_calls w ++
          [{| call_image := input_image;
              call_kwargs := if post then alpha_matting_kwargs else no_kwargs |}];
        log := log w ++ [INFO; INFO; INFO; INFO; ERROR] |}).
Proof.
  intros Ho Hvalid Hm Hs Hname. rewrite remove_background_file_run, Ho.
  destruct (validate_image_shape input_image) as [H | [msg H]];
    [| rewrite H in Hvalid; discriminate].
  rewrite (remove_background_valid _ _ _ H). cbv zeta. rewrite Hm.
  unfold image_to_bytes. rewrite Hs, Response_init_file, Hname.
  rewrite remove_background_file_except_run.
  cbn [isinstance_ValueError str_exn]. unfold logged, model_called.
  cbn [ticks model_calls log]. rewrite <- !app_assoc. reflexivity.
Qed.

(** X22. The image data of every successful response of the base64
    endpoint passes the request validator of that same endpoint, unchanged:
    an answer can be sent back as a request. *)
Theorem response_passes_request_validator (request : ImageProcessRequest)
    (w w' : World) (response : ImageProcessResponse) :
  remove_background_base64 request w = (inr response, w') ->
  exists text,
    image_data response = Some text /\
    validate_base64 text = inr text.
Proof.
  rewrite remove_background_base64_run.
  destruct (base64_to_image (image_base64 request) (logged INFO w)) as [[e | input_image] w1];
    [rewrite remove_background_base64_except_run; discriminate |].
  destruct (remove_background input_image (post_process request) w1)
    as [[e | [output_image elapsed]] w2];
    [rewrite remove_background_base64_except_run; discriminate |].
  unfold image_to_base64.
  destruct (output_format request);
    try (rewrite remove_background_base64_except_run; discriminate);
    (destruct (Image_save output_image "PNG") as [e | image_bytes];
     [rewrite remove_background_base64_except_run; discriminate |]);
    intros E; injection E as <- _; exists (b64encode image_bytes); cbn [image_data];
    (split; [reflexivity |]); unfold validate_base64; rewrite b64decode_b64encode; reflexivity.
Qed.

End Facade.

Arguments success {pyfloat} _.
Arguments response_output_format {pyfloat} _.
Arguments image_data {pyfloat} _.
Arguments processing_time {pyfloat} _.
Arguments original_size {pyfloat} _.
Arguments message {pyfloat} _.

(** ** The facade on the test doubles *)

Local Abbreviation stub_validate_image := (validate_image Stub.repr_SUPPORTED_FORMATS).

Local Abbreviation stub_remove_background :=
  (remove_background Stub.repr_SUPPORTED_FORMATS Z Z.sub Stub.clock Stub.remove).

Local Abbreviation stub_base64_to_image := (base64_to_image Stub.Image_open Stub.Image_load).

Local Abbreviation stub_image_to_base64 := (image_to_base64 Stub.Image_save).

Local Abbreviation stub_remove_background_base64 :=
  (remove_background_base64 Stub.repr_SUPPORTED_FORMATS Z Z.sub Stub.round Stub.clock
     Stub.Image_open Stub.Image_load Stub.Image_save Stub.remove).

(** C1 at a 100x100 PNG image. *)
Lemma validate_image_accepts_witness :
  stub_validate_image {| format := Some "PNG"; size := (100, 100)%Z |} = (true, None).
Proof.
  apply (validate_image_accepts Stub.repr_SUPPORTED_FORMATS _ 100 100).
  - reflexivity.
  - cbn. left. reflexivity.
  - lia.
  - lia.
  - lia.
Defined.

(** C5, as amended, at a 9x100 image with no format tag. *)
Lemma validate_image_small_side_witness :
  stub_validate_image {| format := None; size := (9, 100)%Z |} =
  (false, Some "Image trop petite (minimum 10x10 pixels)").
Proof.
  apply (validate_image_small_side Stub.repr_SUPPORTED_FORMATS
           {| format := None; size := (9, 100)%Z |} 9 100).
  - reflexivity.
  - exact I.
  - left. lia.
  - lia.
Defined.

(** C5 as stated fails: a 9 x 1,864,136 image has a side of 9 pixels and no
    format tag, and the reason it is refused for is the too-large one. *)
Lemma validate_image_small_side_counterexample :
  stub_validate_image {| format := None; size := (9, 1864136)%Z |} =
    (false, Some "Image trop grande (9x1864136). Maximum : 16777216 pixels") /\
  is_too_small_reason "Image trop grande (9x1864136). Maximum : 16777216 pixels" = false /\
  "Image trop grande (9x1864136). Maximum : 16777216 pixels" <> too_small_message.
Proof.
  split; [vm_compute; reflexivity |]. split; [vm_compute; reflexivity |].
  unfold too_small_message. intros H. discriminate H.
Qed.

(** C8, as amended, at a 4097x4097 image with no format tag. *)
Lemma validate_image_too_large_witness :
  exists msg,
    stub_validate_image {| format := None; size := (4097, 4097)%Z |} = (false, Some msg) /\
    msg = "Image trop grande (" ++ str_int 4097 ++ "x" ++ str_int 4097
          ++ "). Maximum : 16777216 pixels" /\
    is_too_large_reason msg = true /\
    contains msg (str_int 4097 ++ "x" ++ str_int 4097) = true /\
    contains msg "16777216" = true.
Proof.
  apply (validate_image_too_large Stub.repr_SUPPORTED_FORMATS
           {| format := None; size := (4097, 4097)%Z |} 4097 4097).
  - reflexivity.
  - exact I.
  - lia.
Defined.

(** C8 as stated fails twice. The message for a 4097x4097 image holds the
    sides and the limit, and nowhere the pixel count 16785409; and an image
    of that size with an unsupported format tag is refused for its format. *)
Lemma validate_image_too_large_counterexample :
  stub_validate_image {| format := None; size := (4097, 4097)%Z |} =
    (false, Some "Image trop grande (4097x4097). Maximum : 16777216 pixels") /\
  str_int (4097 * 4097) = "16785409" /\
  contains "Image trop grande (4097x4097). Maximum : 16777216 pixels" "16785409" = false /\
  stub_validate_image {| format := Some "GIF"; size := (4097, 4097)%Z |} =
    (false, Some "Format GIF non supporté. Formats acceptés : {'PNG', 'JPEG', 'JPG', 'WEBP', 'BMP'}") /\
  is_too_large_reason
    "Format GIF non supporté. Formats acceptés : {'PNG', 'JPEG', 'JPG', 'WEBP', 'BMP'}" = false.
Proof. repeat split; vm_compute; reflexivity. Qed.

(** C2, as amended, at a 5x5 image with no format tag. *)
Lemma remove_background_rejects_invalid_witness :
  exists msg,
    snd (stub_validate_image {| format := None; size := (5, 5)%Z |}) = Some msg /\
    stub_remove_background {| format := None; size := (5, 5)%Z |} false Stub.world0 =
      (inl (PyErr ValueError msg), logged ERROR Stub.world0) /\
    model_calls (snd (stub_remove_background {| format := None; size := (5, 5)%Z |}
                        false Stub.world0)) = model_calls Stub.world0 /\
    ticks (snd (stub_remove_background {| format := None; size := (5, 5)%Z |}
                  false Stub.world0)) = ticks Stub.world0 /\
    (size {| format := None; size := (5, 5)%Z |} = (5, 5)%Z ->
     supported_or_absent {| format := None; size := (5, 5)%Z |} ->
     msg = too_small_message).
Proof.
  apply (remove_background_rejects_invalid Stub.repr_SUPPORTED_FORMATS Z Z.sub Stub.clock
           Stub.remove {| format := None; size := (5, 5)%Z |} false Stub.world0).
  reflexivity.
Defined.

(** C2 as stated fails: a 5x5 GIF image is refused with the message about
    its format, which is not the too-small one. The model is not called. *)
Lemma remove_background_rejects_invalid_counterexample :
  stub_remove_background {| format := Some "GIF"; size := (5, 5)%Z |} false Stub.world0 =
    (inl (PyErr ValueError
            "Format GIF non supporté. Formats acceptés : {'PNG', 'JPEG', 'JPG', 'WEBP', 'BMP'}"),
     {| ticks := 0; model_calls := []; log := [ERROR] |}) /\
  is_too_small_reason
    "Format GIF non supporté. Formats acceptés : {'PNG', 'JPEG', 'JPG', 'WEBP', 'BMP'}" = false.
Proof. split; vm_compute; reflexivity. Qed.

(** C3 at a 100x100 PNG image with [post_process] on. *)
Lemma remove_background_calls_model_once_witness :
  model_calls (snd (stub_remove_background {| format := Some "PNG"; size := (100, 100)%Z |}
                      true Stub.world0)) =
  [{| call_image := {| format := Some "PNG"; size := (100, 100)%Z |};
      call_kwargs := {| alpha_matting := Some true;
                        alpha_matting_foreground_threshold := Some 240%Z;
                        alpha_matting_background_threshold := Some 10%Z;
                        alpha_matting_erode_size := Some 10%Z |} |}].
Proof.
  apply (remove_background_calls_model_once Stub.repr_SUPPORTED_FORMATS Z Z.sub Stub.clock
           Stub.remove {| format := Some "PNG"; size := (100, 100)%Z |} true Stub.world0).
  reflexivity.
Defined.



Local Abbreviation stub_response :=
  {| success := true;
     response_output_format := BASE64;
     image_data := Some "iWRk";
     processing_time := 1%Z;
     original_size := (100, 100)%Z;
     message := Some "Image traitée avec succès" |}.

(** C7, as amended, at a request for the [base64] output of a 100x100
    image, which is answered with [stub_response]. *)
Lemma remove_background_base64_success_witness :
  exists input_image output_image image_bytes,
    stub_base64_to_image "iWRk" (logged INFO Stub.world0) =
      (inr input_image, logged INFO Stub.world0) /\
    Stub.remove input_image no_kwargs = inr output_image /\
    Stub.Image_save output_image "PNG" = inr image_bytes /\
    (BASE64 = BASE64 \/ BASE64 = BINARY) /\
    image_data stub_response = Some (b64encode image_bytes) /\
    response_output_format stub_response = BASE64 /\
    original_size stub_response = size input_image /\
    processing_time stub_response = Stub.round (Stub.clock 1 - Stub.clock 0) 3 /\
    success stub_response = true.
Proof.
  apply (remove_background_base64_success Stub.repr_SUPPORTED_FORMATS Z Z.sub Stub.round
           Stub.clock Stub.Image_open Stub.Image_load Stub.Image_save Stub.remove
           {| image_base64 := "iWRk"; output_format := BASE64; post_process := false |}
           Stub.world0
           {| ticks := 2;
              model_calls := [{| call_image := {| format := Some "PNG"; size := (100, 100)%Z |};
                                 call_kwargs := no_kwargs |}];
              log := [INFO; INFO; INFO] |}
           stub_response).
  vm_compute. reflexivity.
Defined.

(** C7 as stated fails: a request for the [binary] output is answered with
    the same base64 text as a request for the [base64] output, not with the
    bytes of the PNG file. *)
Lemma remove_background_base64_success_counterexample :
  fst (stub_remove_background_base64
         {| image_base64 := "iWRk"; output_format := BINARY; post_process := false |}
         Stub.world0) =
    inr {| success := true;
           response_output_format := BINARY;
           image_data := Some "iWRk";
           processing_time := 1%Z;
           original_size := (100, 100)%Z;
           message := Some "Image traitée avec succès" |} /\
  image_to_bytes Stub.Image_save {| format := None; size := (100, 100)%Z |} "PNG" =
    inr [x89; x64; x64] /\
  "iWRk" = b64encode [x89; x64; x64] /\
  "iWRk" <> string_of_bytes [x89; x64; x64].
Proof.
  split; [vm_compute; reflexivity |]. split; [reflexivity |]. split; [reflexivity |].
  vm_compute. intros H. discriminate H.
Qed.

(** C4, as amended, at a text with an accented letter. *)
Lemma base64_to_image_alphabet_witness :
  stub_base64_to_image "é" Stub.world0 =
  (inl (PyErr ValueError
          "Impossible de convertir le base64 en image : string argument should contain only ASCII characters"),
   logged ERROR Stub.world0).
Proof.
  apply (proj1 (base64_to_image_alphabet Stub.repr_SUPPORTED_FORMATS Z Z.sub Stub.round
                  Stub.clock Stub.Image_open Stub.Image_load Stub.Image_save Stub.remove
                  Stub.world0) "é").
  exists (ascii_of_nat 195). split; [left; reflexivity | reflexivity].
Defined.

(** C4 as stated fails: the text [iW Rk] has a space, which is outside the
    base64 alphabet; the request validator accepts it, [base64_to_image]
    returns the image that [iWRk] encodes, and the endpoint calls the
    model. *)
Lemma base64_to_image_alphabet_counterexample :
  has_non_alphabet "iW Rk" /\
  validate_base64 "iW Rk" = inr "iW Rk" /\
  stub_base64_to_image "iW Rk" Stub.world0 =
    (inr {| format := Some "PNG"; size := (100, 100)%Z |}, Stub.world0) /\
  model_calls (snd (stub_remove_background_base64
                      {| image_base64 := "iW Rk"; output_format := BASE64;
                         post_process := false |} Stub.world0)) =
    [{| call_image := {| format := Some "PNG"; size := (100, 100)%Z |};
        call_kwargs := no_kwargs |}].
Proof.
  split.
  - exists " "%char. split; [right; right; left; reflexivity | reflexivity].
  - repeat split; vm_compute; reflexivity.
Qed.

(** C6 at a request for the [url] output of a 100x100 image: the model is
    called, and the answer is 500 with the 501 message inside its detail. *)
Example url_output_example :
  stub_remove_background_base64
    {| image_base64 := "iWRk"; output_format := URL; post_process := false |} Stub.world0 =
  (inl (HTTPException 500
          "Erreur lors du traitement de l'image : 501: Le format 'url' n'est pas encore implémenté. Utilisez 'base64' ou 'binary'."),
   {| ticks := 2;
      model_calls := [{| call_image := {| format := Some "PNG"; size := (100, 100)%Z |};
                         call_kwargs := no_kwargs |}];
      log := [INFO; INFO; INFO; ERROR] |}).
Proof. vm_compute. reflexivity. Qed.

(** ** Further properties on the test doubles *)

Local Abbreviation stub_remove_background_file :=
  (remove_background_file Stub.repr_SUPPORTED_FORMATS Z Z.sub Stub.round Stub.clock
     Stub.Image_open Stub.Image_save Stub.remove Stub.str_float Stub.str_UnicodeEncodeError).

(** A model that always raises, and a [ValueError] at that. *)
Local Abbreviation failing_remove :=
  (fun (_ : Image) (_ : rembg_kwargs) => @inl exn Image (PyErr ValueError "out of memory")).

(** X2 at a 5x5 image with no format tag, refused as too small. *)
Lemma validate_image_reason_witness :
  is_too_small_reason "Image trop petite (minimum 10x10 pixels)" = true <->
  supported_or_absent {| format := None; size := (5, 5)%Z |} /\
  (5 * 5 <= 16777216)%Z /\ ((5 < 10)%Z \/ (5 < 10)%Z).
Proof.
  apply (proj2 (proj2 (validate_image_reason Stub.repr_SUPPORTED_FORMATS
                         {| format := None; size := (5, 5)%Z |}
                         "Image trop petite (minimum 10x10 pixels)" eq_refl))).
Defined.

(** X3 at a 100x100 PNG image. *)
Lemma validate_image_side_bounds_witness :
  (10 <= 100 <= 1677721)%Z /\ (10 <= 100 <= 1677721)%Z.
Proof.
  apply (validate_image_side_bounds Stub.repr_SUPPORTED_FORMATS
           {| format := Some "PNG"; size := (100, 100)%Z |}).
  reflexivity.
Defined.

(** X4 at a 100x100 image and a model that raises a [ValueError]. *)
Lemma remove_background_model_failure_witness :
  remove_background Stub.repr_SUPPORTED_FORMATS Z Z.sub Stub.clock failing_remove
    {| format := Some "PNG"; size := (100, 100)%Z |} false Stub.world0 =
  (inl (PyErr Exception "Échec du traitement d'image : out of memory"),
   {| ticks := 1;
      model_calls := [{| call_image := {| format := Some "PNG"; size := (100, 100)%Z |};
                         call_kwargs := no_kwargs |}];
      log := [INFO; ERROR] |}).
Proof.
  apply (proj1 (remove_background_model_failure Stub.repr_SUPPORTED_FORMATS Z Z.sub Stub.clock
                  failing_remove {| format := Some "PNG"; size := (100, 100)%Z |} false
                  (PyErr ValueError "out of memory") Stub.world0 eq_refl eq_refl)).
Defined.

(** X5 at a 100x100 image with [post_process] on. *)
Lemma remove_background_success_witness :
  stub_remove_background {| format := Some "PNG"; size := (100, 100)%Z |} true Stub.world0 =
  (inr ({| format := None; size := (100, 100)%Z |}, 1%Z),
   {| ticks := 2;
      model_calls := [{| call_image := {| format := Some "PNG"; size := (100, 100)%Z |};
                         call_kwargs := alpha_matting_kwargs |}];
      log := [INFO; INFO] |}).
Proof.
  apply (remove_background_success Stub.repr_SUPPORTED_FORMATS Z Z.sub Stub.clock Stub.remove
           {| format := Some "PNG"; size := (100, 100)%Z |}
           {| format := None; size := (100, 100)%Z |} true Stub.world0 eq_refl eq_refl).
Defined.

(** X6 at the text [A], one digit short of anything. *)
Lemma base64_to_image_failure_witness :
  exists cause,
    PyErr ValueError
      "Impossible de convertir le base64 en image : Invalid base64-encoded string: number of data characters (1) cannot be 1 more than a multiple of 4" =
    PyErr ValueError ("Impossible de convertir le base64 en image : " ++ str_exn cause) /\
    (b64decode "A" = inl cause \/
     exists image_bytes,
       b64decode "A" = inr image_bytes /\
       (Stub.Image_open image_bytes = inl cause \/
        exists image,
          Stub.Image_open image_bytes = inr image /\ Stub.Image_load image = inl cause)).
Proof.
  apply (proj2 (base64_to_image_failure Stub.Image_open Stub.Image_load "A" _ Stub.world0
                  (logged ERROR Stub.world0) eq_refl)).
Defined.

(** X7 at a 100x100 image. *)
Lemma image_to_base64_text_witness :
  exists image_bytes,
    image_to_bytes Stub.Image_save {| format := None; size := (100, 100)%Z |} "PNG" =
      inr image_bytes /\
    b64decode "iWRk" = inr image_bytes /\
    all_chars in_base64_alphabet "iWRk" = true /\
    String.length "iWRk" = (4 * ((List.length image_bytes + 2) / 3))%nat.
Proof.
  apply (image_to_base64_text Stub.Image_save
           {| format := None; size := (100, 100)%Z |} "PNG" "iWRk" eq_refl).
Defined.

(** X8 at a 100x100 image. *)
Lemma validate_base64_accepts_encoded_witness : validate_base64 "iWRk" = inr "iWRk".
Proof.
  apply (validate_base64_accepts_encoded Stub.Image_save
           {| format := None; size := (100, 100)%Z |} "PNG" "iWRk" eq_refl).
Defined.

(** X9 at a text of blanks, punctuation and a pad. *)
Lemma validate_base64_accepts_digitless_witness :
  validate_base64 " !?=" = inr " !?=" /\
  b64decode " !?=" = inr [] /\
  stub_base64_to_image " !?=" Stub.world0 = stub_base64_to_image "" Stub.world0.
Proof.
  apply (validate_base64_accepts_digitless Stub.Image_open Stub.Image_load " !?=" Stub.world0).
  reflexivity.
Defined.

(** X10 at a text of six digits. *)
Lemma validate_base64_unpadded_witness :
  validate_base64 "iWRkiW" = inl (PyErr ValueError "Le base64 fourni est invalide").
Proof.
  apply (proj2 (validate_base64_unpadded "iWRkiW" eq_refl)).
  cbn. discriminate.
Defined.

(** X11 at the text of a 100x100 image. *)
Lemma base64_to_image_after_validation_witness :
  exists image_bytes,
    b64decode "iWRk" = inr image_bytes /\
    stub_base64_to_image "iWRk" Stub.world0 =
    match Stub.Image_open image_bytes with
    | inl e =>
        (inl (PyErr ValueError ("Impossible de convertir le base64 en image : " ++ str_exn e)),
         logged ERROR Stub.world0)
    | inr image =>
        match Stub.Image_load image with
        | inl e =>
            (inl (PyErr ValueError
                    ("Impossible de convertir le base64 en image : " ++ str_exn e)),
             logged ERROR Stub.world0)
        | inr _ => (inr image, Stub.world0)
        end
    end.
Proof.
  apply (proj2 (base64_to_image_after_validation Stub.Image_open Stub.Image_load
                  "iWRk" "iWRk" Stub.world0 eq_refl)).
Defined.

(** X13 at the text of a 5x5 image. *)
Lemma remove_background_base64_invalid_image_witness :
  stub_remove_background_base64
    {| image_base64 := "iQUF"; output_format := BASE64; post_process := false |} Stub.world0 =
  (inl (HTTPException 400 "Image trop petite (minimum 10x10 pixels)"),
   {| ticks := 0; model_calls := []; log := [INFO; ERROR; ERROR] |}).
Proof.
  apply (remove_background_base64_invalid_image Stub.repr_SUPPORTED_FORMATS Z Z.sub Stub.round
           Stub.clock Stub.Image_open Stub.Image_load Stub.Image_save Stub.remove
           {| image_base64 := "iQUF"; output_format := BASE64; post_process := false |}
           {| format := Some "PNG"; size := (5, 5)%Z |}
           "Image trop petite (minimum 10x10 pixels)" Stub.world0 eq_refl eq_refl).
Defined.

(** X14 at the text of a 100x100 image and a model that raises a
    [ValueError]. *)
Lemma remove_background_base64_model_failure_witness :
  fst (remove_background_base64 Stub.repr_SUPPORTED_FORMATS Z Z.sub Stub.round Stub.clock
         Stub.Image_open Stub.Image_load Stub.Image_save failing_remove
         {| image_base64 := "iWRk"; output_format := BASE64; post_process := false |}
         Stub.world0) =
  inl (HTTPException 500
         "Erreur lors du traitement de l'image : Échec du traitement d'image : out of memory").
Proof.
  apply (remove_background_base64_model_failure Stub.repr_SUPPORTED_FORMATS Z Z.sub Stub.round
           Stub.clock Stub.Image_open Stub.Image_load Stub.Image_save failing_remove
           {| image_base64 := "iWRk"; output_format := BASE64; post_process := false |}
           {| format := Some "PNG"; size := (100, 100)%Z |}
           (PyErr ValueError "out of memory") Stub.world0 eq_refl eq_refl eq_refl).
Defined.

(** X15 at a request for the [url] output with [post_process] on. *)
Lemma remove_background_base64_calls_model_witness :
  model_calls (snd (stub_remove_background_base64
                      {| image_base64 := "iWRk"; output_format := URL; post_process := true |}
                      Stub.world0)) =
  [{| call_image := {| format := Some "PNG"; size := (100, 100)%Z |};
      call_kwargs := alpha_matting_kwargs |}].
Proof.
  apply (remove_background_base64_calls_model Stub.repr_SUPPORTED_FORMATS Z Z.sub Stub.round
           Stub.clock Stub.Image_open Stub.Image_load Stub.Image_save Stub.remove
           {| image_base64 := "iWRk"; output_format := URL; post_process := true |}
           {| format := Some "PNG"; size := (100, 100)%Z |} Stub.world0 eq_refl eq_refl).
Defined.

Local Abbreviation stub_upload :=
  {| filename := Some "cat.png"; content_type := Some "image/png";
     contents := [x89; x64; x64] |}.

Local Abbreviation stub_file_response :=
  {| content := [x89; x64; x64];
     media_type := "image/png";
     headers := [("Content-Disposition", "attachment; filename=nobg_cat.png");
                 ("X-Processing-Time", "1")] |}.

(** X16 at the upload of a 100x100 image named [cat.png]. *)
Lemma remove_background_file_success_witness :
  exists input_image output_image,
    Stub.Image_open [x89; x64; x64] = inr input_image /\
    stub_validate_image input_image = (true, None) /\
    Stub.remove input_image no_kwargs = inr output_image /\
    Stub.Image_save output_image "PNG" = inr (content stub_file_response) /\
    media_type stub_file_response = "image/png" /\
    headers stub_file_response =
      [("Content-Disposition", "attachment; filename=nobg_cat.png");
       ("X-Processing-Time", Stub.str_float (Stub.round (Stub.clock 1 - Stub.clock 0) 3))] /\
    [{| call_image := {| format := Some "PNG"; size := (100, 100)%Z |};
        call_kwargs := no_kwargs |}] =
      ([] ++ [{| call_image := input_image; call_kwargs := no_kwargs |}])%list.
Proof.
  apply (remove_background_file_success Stub.repr_SUPPORTED_FORMATS Z Z.sub Stub.round
           Stub.clock Stub.Image_open Stub.Image_save Stub.remove Stub.str_float Stub.str_UnicodeEncodeError
           stub_upload false Stub.world0
           {| ticks := 2;
              model_calls := [{| call_image := {| format := Some "PNG"; size := (100, 100)%Z |};
                                 call_kwargs := no_kwargs |}];
              log := [INFO; INFO; INFO; INFO] |}
           stub_file_response eq_refl).
Defined.

(** X17 at a one-byte upload the toy container does not recognise, and at
    the base64 text of that byte. *)
Lemma undecodable_bytes_status_witness :
  stub_remove_background_file
    {| filename := None; content_type := None; contents := [x00] |} false Stub.world0 =
    (inl (HTTPException 500
            "Erreur lors du traitement du fichier : cannot identify image file"),
     {| ticks := 0; model_calls := []; log := [INFO; ERROR] |}) /\
  stub_remove_background_base64
    {| image_base64 := "AA=="; output_format := BASE64; post_process := false |} Stub.world0 =
    (inl (HTTPException 400
            "Impossible de convertir le base64 en image : cannot identify image file"),
     {| ticks := 0; model_calls := []; log := [INFO; ERROR; ERROR] |}).
Proof.
  apply (undecodable_bytes_status Stub.repr_SUPPORTED_FORMATS Z Z.sub Stub.round Stub.clock
           Stub.Image_open Stub.Image_load Stub.Image_save Stub.remove Stub.str_float Stub.str_UnicodeEncodeError
           {| filename := None; content_type := None; contents := [x00] |} false
           {| image_base64 := "AA=="; output_format := BASE64; post_process := false |}
           (PyErr (OtherError "UnidentifiedImageError") "cannot identify image file")
           Stub.world0 eq_refl eq_refl eq_refl).
Defined.

(** X18 at the upload of a 5x5 image. *)
Lemma remove_background_file_invalid_image_witness :
  stub_remove_background_file
    {| filename := None; content_type := None; contents := [x89; x05; x05] |} false
    Stub.world0 =
  (inl (HTTPException 400 "Image trop petite (minimum 10x10 pixels)"),
   {| ticks := 0; model_calls := []; log := [INFO; ERROR; ERROR] |}).
Proof.
  apply (remove_background_file_invalid_image Stub.repr_SUPPORTED_FORMATS Z Z.sub Stub.round
           Stub.clock Stub.Image_open Stub.Image_save Stub.remove Stub.str_float Stub.str_UnicodeEncodeError
           {| filename := None; content_type := None; contents := [x89; x05; x05] |} false
           {| format := Some "PNG"; size := (5, 5)%Z |}
           "Image trop petite (minimum 10x10 pixels)" Stub.world0 eq_refl eq_refl).
Defined.

(** X20 at a request for the [binary] output of a 100x100 image. *)
Lemma remove_background_base64_succeeds_witness :
  fst (stub_remove_background_base64
         {| image_base64 := "iWRk"; output_format := BINARY; post_process := false |}
         Stub.world0) =
  inr {| success := true;
         response_output_format := BINARY;
         image_data := Some "iWRk";
         processing_time := 1%Z;
         original_size := (100, 100)%Z;
         message := Some "Image traitée avec succès" |}.
Proof.
  apply (remove_background_base64_succeeds Stub.repr_SUPPORTED_FORMATS Z Z.sub Stub.round
           Stub.clock Stub.Image_open Stub.Image_load Stub.Image_save Stub.remove
           {| image_base64 := "iWRk"; output_format := BINARY; post_process := false |}
           {| format := Some "PNG"; size := (100, 100)%Z |}
           {| format := None; size := (100, 100)%Z |}
           [x89; x64; x64] Stub.world0 eq_refl eq_refl eq_refl eq_refl).
  discriminate.
Defined.

(** X21 at the upload of a 100x100 image named [cat.png]. *)
Lemma remove_background_file_succeeds_witness :
  fst (stub_remove_background_file stub_upload false Stub.world0) = inr stub_file_response.
Proof.
  apply (remove_background_file_succeeds Stub.repr_SUPPORTED_FORMATS Z Z.sub Stub.round
           Stub.clock Stub.Image_open Stub.Image_save Stub.remove Stub.str_float
           Stub.str_UnicodeEncodeError stub_upload false
           {| format := Some "PNG"; size := (100, 100)%Z |}
           {| format := None; size := (100, 100)%Z |}
           [x89; x64; x64] Stub.world0 eq_refl eq_refl eq_refl eq_refl eq_refl eq_refl).
Defined.

(** X23 at the upload of a 100x100 image named with the two Chinese
    characters for panda, U+718A U+732B, and the extension [.png]. *)
Lemma remove_background_file_unencodable_name_witness :
  stub_remove_background_file
    {| filename := Some "熊猫.png"; content_type := Some "image/png";
       contents := [x89; x64; x64] |} false Stub.world0 =
  (inl (HTTPException 400
          "'latin-1' codec can't encode characters: ordinal not in range(256)"),
   {| ticks := 2;
      model_calls := [{| call_image := {| format := Some "PNG"; size := (100, 100)%Z |};
                         call_kwargs := no_kwargs |}];
      log := [INFO; INFO; INFO; INFO; ERROR] |}).
Proof.
  apply (remove_background_file_unencodable_name Stub.repr_SUPPORTED_FORMATS Z Z.sub Stub.round
           Stub.clock Stub.Image_open Stub.Image_save Stub.remove Stub.str_float
           Stub.str_UnicodeEncodeError
           {| filename := Some "熊猫.png"; content_type := Some "image/png";
              contents := [x89; x64; x64] |} false
           {| format := Some "PNG"; size := (100, 100)%Z |}
           {| format := None; size := (100, 100)%Z |}
           [x89; x64; x64] Stub.world0 eq_refl eq_refl eq_refl eq_refl eq_refl).
Defined.

(** X22 at a request for the [base64] output of a 100x100 image. *)
Lemma response_passes_request_validator_witness :
  exists text,
    image_data stub_response = Some text /\ validate_base64 text = inr text.
Proof.
  apply (response_passes_request_validator Stub.repr_SUPPORTED_FORMATS Z Z.sub Stub.round
           Stub.clock Stub.Image_open Stub.Image_load Stub.Image_save Stub.remove
           {| image_base64 := "iWRk"; output_format := BASE64; post_process := false |}
           Stub.world0
           {| ticks := 2;
              model_calls := [{| call_image := {| format := Some "PNG"; size := (100, 100)%Z |};
                                 call_kwargs := no_kwargs |}];
              log := [INFO; INFO; INFO] |}
           stub_response eq_refl).
Defined.
